(** * The Cloud IoT end-to-end sample device, embedded in Rocq

    Source: iot/api-client/end_to_end_example/cloudiot_pubsub_example_mqtt_device.py

    The Python functions are translated as functions in a small monad that
    threads the object a method works on ([self]), collects the calls the
    code makes into its environment (print, leds, time.sleep, publish, ...)
    and carries Python exceptions.  Library calls whose code is not part of
    the repository (json.loads, jwt.encode, the serial port, the clock) are
    inputs of the model. *)

From Stdlib Require Import ZArith NArith String Ascii DecimalString List Bool Lia.
Import ListNotations.

Set Warnings "-register-all".

(** ** Python text and bytes *)

(** A Python [str] is a sequence of Unicode code points. *)
Definition codepoint := N.
Definition text := list codepoint.

(** A Python [bytes] object. *)
Definition bytes := list Byte.byte.

(** Text of a literal of the source. *)
Definition str (s : string) : text :=
  map N_of_ascii (list_ascii_of_string s).

Fixpoint text_eqb (a b : text) : bool :=
  match a, b with
  | [], [] => true
  | x :: a', y :: b' => N.eqb x y && text_eqb a' b'
  | _, _ => false
  end.

(** ** Python values

    The values that [json.loads] builds, which are also the values the
    attributes of the two device classes hold. *)

(** A Python [float]: not-a-number, an infinity, or the finite value
    [m * 2^e]. *)
Inductive float :=
| NaN
| Inf (negative : bool)
| Finite (m e : Z).

Inductive value :=
| VNone
| VBool (b : bool)
| VInt (z : Z)
| VFloat (f : float)
| VStr (t : text)
| VList (items : list value)
| VDict (items : list (text * value)).

(** A dict is kept as its items in insertion order; keys are distinct. *)
Fixpoint lookup (k : text) (items : list (text * value)) : option value :=
  match items with
  | [] => None
  | (k', v) :: rest => if text_eqb k k' then Some v else lookup k rest
  end.

(** bool, int and float compare as numbers (True is 1, False is 0). *)
Definition number_of (v : value) : option float :=
  match v with
  | VBool b => Some (Finite (if b then 1 else 0) 0)
  | VInt z => Some (Finite z 0)
  | VFloat f => Some f
  | _ => None
  end.

(** [==] on numbers: exact on finite values, NaN equals nothing. *)
Definition num_eq (a b : float) : bool :=
  match a, b with
  | Finite m e, Finite m' e' =>
      let k := Z.min e e' in
      (m * 2 ^ (e - k) =? m' * 2 ^ (e' - k))%Z
  | Inf s, Inf s' => Bool.eqb s s'
  | _, _ => false
  end.

Definition is_nan (v : value) : bool :=
  match v with
  | VFloat NaN => true
  | _ => false
  end.

(** Equality of two items inside a list or a dict: [x is y or x == y].
    Distinct decoded objects that are identical are unequal only for NaN,
    and every NaN that json.loads returns is the one object
    [json.decoder.NaN]. *)
Fixpoint item_eq (x y : value) {struct x} : bool :=
  match x, y with
  | VNone, VNone => true
  | VStr a, VStr b => text_eqb a b
  | VList xs, VList ys =>
      (fix items_eq (xs ys : list value) : bool :=
         match xs, ys with
         | [], [] => true
         | x' :: xs', y' :: ys' => item_eq x' y' && items_eq xs' ys'
         | _, _ => false
         end) xs ys
  | VDict kvs, VDict kws =>
      Nat.eqb (length kvs) (length kws) &&
      (fix entries_eq (kvs : list (text * value)) : bool :=
         match kvs with
         | [] => true
         | (k, v) :: rest =>
             match lookup k kws with
             | Some w => item_eq v w
             | None => false
             end && entries_eq rest
         end) kvs
  | _, _ =>
      match number_of x, number_of y with
      | Some a, Some b => (is_nan x && is_nan y) || num_eq a b
      | _, _ => false
      end
  end.

(** [x == y] and [x != y] as the interpreter evaluates them on two values:
    no identity shortcut at the top. *)
Definition py_eq (x y : value) : bool :=
  if is_nan x && is_nan y then false else item_eq x y.

Definition py_ne (x y : value) : bool := negb (py_eq x y).

(** Truth value of an object in [if x:]. *)
Definition truthy (v : value) : bool :=
  match v with
  | VNone => false
  | VBool b => b
  | VInt z => negb (z =? 0)%Z
  | VFloat (Finite m _) => negb (m =? 0)%Z
  | VFloat _ => true
  | VStr t => negb (Nat.eqb (length t) 0)
  | VList l => negb (Nat.eqb (length l) 0)
  | VDict l => negb (Nat.eqb (length l) 0)
  end.

(** ** Exceptions, environment calls and the monad *)

(** Exceptions, all of them instances of [Exception]. *)
Inductive exn :=
| ValueError (msg : string)
| KeyError (key : text)
| TypeError (msg : string)
| UnboundLocalError (name : string)
| RuntimeError (msg : string)
| LibraryError (class : string).   (* raised inside a library call *)

(** What a call returns or raises. *)
Inductive outcome (A : Type) :=
| Returned (a : A)
| Raised (e : exn).
Arguments Returned {A} a.
Arguments Raised {A} e.

(** A [datetime]: microseconds on the UTC time line. *)
Definition datetime := Z.

(** [datetime.timedelta(minutes=m)] *)
Definition timedelta_minutes (m : Z) : Z := (m * 60 * 1000000)%Z.

(** The dict handed to [jwt.encode]. *)
Record jwt_claims := {
  iat : datetime;
  exp : datetime;
  aud : text
}.

(** [json.dumps(obj)], kept symbolic. *)
Inductive json_text := Dumps (obj : value).

(** Objects handed to [print] or [str.format]. *)
Inductive obj :=
| OText (t : text)
| OBytes (b : bytes)
| OInt (z : Z)
| OValue (v : value)
| OExn (e : exn)
| OJson (j : json_text).

(** Calls into the environment, in the order the code makes them. *)
Inductive event :=
| Print (template : string) (args : list obj)
| JsonLoads (payload : bytes)
| JwtEncode (claims : jwt_claims) (key algorithm : text)
| LedsOn
| LedsOff
| Sleep (seconds : Z)
| Publish (topic : text) (payload : json_text) (qos : Z).

Definition trace := list event.

(** A computation on the object [S]: the calls made, the object after it,
    and what came out. *)
Definition Py (S A : Type) : Type := S -> trace * S * outcome A.

Definition ret {S A} (a : A) : Py S A :=
  fun s => ([], s, Returned a).

Definition raise {S A} (e : exn) : Py S A :=
  fun s => ([], s, Raised e).

Definition bind {S A B} (m : Py S A) (k : A -> Py S B) : Py S B :=
  fun s =>
    match m s with
    | (t, s', Returned a) =>
        match k a s' with
        | (t', s'', r) => (t ++ t', s'', r)
        end
    | (t, s', Raised e) => (t, s', Raised e)
    end.

Declare Scope py_scope.
Delimit Scope py_scope with py.
Notation "x <- m ;; k" := (bind m (fun x => k))
  (at level 61, m at next level, right associativity) : py_scope.
Notation "m ;; k" := (bind m (fun _ => k))
  (at level 61, right associativity) : py_scope.
Open Scope py_scope.

(** [try: body except Exception as e: handler(e)] *)
Definition try_except {S A} (body : Py S A) (handler : exn -> Py S A) : Py S A :=
  fun s =>
    match body s with
    | (t, s', Returned a) => (t, s', Returned a)
    | (t, s', Raised e) =>
        match handler e s' with
        | (t', s'', r) => (t ++ t', s'', r)
        end
    end.

Definition emit {S} (e : event) : Py S unit :=
  fun s => ([e], s, Returned tt).

Definition print {S} (template : string) (args : list obj) : Py S unit :=
  emit (Print template args).

Definition get {S A} (field : S -> A) : Py S A :=
  fun s => ([], s, Returned (field s)).

Definition modify {S} (f : S -> S) : Py S unit :=
  fun s => ([], f s, Returned tt).

(** The result of a library call enters the computation. *)
Definition lift {S A} (r : outcome A) : Py S A :=
  fun s => ([], s, r).

(** ** The pattern of the serial parser

    [re.findall(r"[-+]?\d*\.\d+|\d+", input_data)]: Python's matcher tries
    the alternatives in order at each position, repetitions are greedy and
    give characters back one at a time. *)

(** [\d] on a str pattern matches the Unicode decimal digits; they come in
    blocks of ten consecutive code points (listed as of Unicode 14).  The
    first block is '0'..'9'. *)
Definition decimal_digit_blocks : list N :=
  [48; 1632; 1776; 1984; 2406; 2534; 2662; 2790; 2918; 3046; 3174; 3302;
   3430; 3558; 3664; 3792; 3872; 4160; 4240; 6112; 6160; 6470; 6608; 6784;
   6800; 6992; 7088; 7232; 7248; 42528; 43216; 43264; 43472; 43504; 43600;
   44016; 65296; 66720; 68912; 69734; 69872; 69942; 70096; 70384; 70736;
   70864; 71248; 71360; 71472; 71904; 72016; 72784; 73040; 73120; 92768;
   92864; 93008; 120782; 120792; 120802; 120812; 120822; 123200; 123632;
   125264; 130032]%N.

Definition is_decimal (c : codepoint) : bool :=
  existsb (fun start => (start <=? c)%N && (c <? start + 10)%N)
          decimal_digit_blocks.

(** A character set [[...]] or a single escaped character. *)
Definition one_of (chars : string) (c : codepoint) : bool :=
  existsb (N.eqb c) (str chars).

(** The pieces the pattern is made of: [c], [c?], [c*], [c+] for a
    character class [c]. *)
Inductive atom :=
| One (c : codepoint -> bool)
| Opt (c : codepoint -> bool)
| Star (c : codepoint -> bool)
| Plus (c : codepoint -> bool).

(** An alternative is a sequence of atoms, a pattern a list of
    alternatives. *)
Definition alternative := list atom.

(** [-+]?\d*\.\d+|\d+ *)
Definition sensor_pattern : list alternative :=
  [ [Opt (one_of "-+"); Star is_decimal; One (one_of "."); Plus is_decimal];
    [Plus is_decimal] ].

(** [c*] followed by [next]: take as many characters as possible, then
    give them back one at a time until [next] matches. *)
Fixpoint match_star (c : codepoint -> bool) (next : text -> option text)
  (s : text) : option text :=
  match s with
  | x :: s' =>
      if c x then
        match match_star c next s' with
        | Some r => Some r
        | None => next s
        end
      else next s
  | [] => next s
  end.

(** Match a sequence of atoms at the start of [s]; the result is the text
    left after the first match in backtracking order. *)
Fixpoint match_atoms (atoms : alternative) (s : text) {struct atoms}
  : option text :=
  match atoms with
  | [] => Some s
  | a :: atoms' =>
      let next := match_atoms atoms' in
      match a with
      | One c =>
          match s with
          | x :: s' => if c x then next s' else None
          | [] => None
          end
      | Opt c =>
          match s with
          | x :: s' =>
              if c x then
                match next s' with
                | Some r => Some r
                | None => next s
                end
              else next s
          | [] => next s
          end
      | Star c => match_star c next s
      | Plus c =>
          match s with
          | x :: s' => if c x then match_star c next s' else None
          | [] => None
          end
      end
  end.

(** The first alternative that matches at the start of [s]. *)
Fixpoint match_here (alts : list alternative) (s : text) : option text :=
  match alts with
  | [] => None
  | alt :: alts' =>
      match match_atoms alt s with
      | Some r => Some r
      | None => match_here alts' s
      end
  end.

(** [re.findall]: scan from the left; after a match the scan resumes at
    its end.  [skip] counts the characters of the last match not yet
    passed.  (No match of this pattern is empty, see
    [sensor_pattern_consumes].) *)
Fixpoint findall_from (alts : list alternative) (skip : nat) (s : text)
  : list text :=
  match s with
  | [] => []
  | _ :: s' =>
      match skip with
      | S k => findall_from alts k s'
      | O =>
          match match_here alts s with
          | Some r =>
              let n := (length s - length r)%nat in
              firstn n s :: findall_from alts (n - 1) s'
          | None => findall_from alts 0 s'
          end
      end
  end.

Definition findall (alts : list alternative) (s : text) : list text :=
  findall_from alts 0 s.

(** ** str.split(sep, 1) and str.strip(chars) *)

(** [s.split(sep, 1)] for a one-character separator: at most one cut, at
    the first separator. *)
Fixpoint split1 (sep : codepoint) (s : text) : list text :=
  match s with
  | [] => [[]]
  | x :: s' =>
      if N.eqb x sep then [[]; s']
      else match split1 sep s' with
           | head :: tail => (x :: head) :: tail
           | [] => [[x]]
           end
  end.

(** [l[-1]] of a list that is not empty. *)
Definition last_item (l : list text) : text := last l [].

Fixpoint lstrip (chars : codepoint -> bool) (s : text) : text :=
  match s with
  | x :: s' => if chars x then lstrip chars s' else s
  | [] => []
  end.

(** [s.strip(chars)]: characters of the set removed at both ends. *)
Definition strip (chars : string) (s : text) : text :=
  rev (lstrip (one_of chars) (rev (lstrip (one_of chars) s))).

Definition CR_LF : string := String (ascii_of_nat 13) (String (ascii_of_nat 10) EmptyString).

(** [for x in items: body(x)] *)
Fixpoint for_each {S A} (items : list A) (body : A -> Py S unit) : Py S unit :=
  match items with
  | [] => ret tt
  | x :: rest => body x ;; for_each rest body
  end.

(** [range(n)] *)
Definition range (n : Z) : list nat := seq 0 (Z.to_nat n).

(** [container[key]] with a str key. *)
Definition getitem (container : value) (key : text) : outcome value :=
  match container with
  | VDict items =>
      match lookup key items with
      | Some v => Returned v
      | None => Raised (KeyError key)
      end
  | VList _ => Raised (TypeError "list indices must be integers or slices, not str")
  | VStr _ => Raised (TypeError "string indices must be integers")
  | _ => Raised (TypeError "object is not subscriptable")
  end.

(** Reading a local variable that may not have been assigned. *)
Definition load_local {S A} (name : string) (slot : option A) : Py S A :=
  match slot with
  | Some v => ret v
  | None => raise (UnboundLocalError name)
  end.

Definition decimal (n : nat) : string := NilEmpty.string_of_uint (Nat.to_uint n).

(** ** class RemoteDevice *)

Module RemoteDevice.

Record t := {
  temperature : value;
  pressure : value;
  humidity : value;
  gas_resistance : value;
  altitude : value;
  connected : bool
}.

(** [__init__]: the attributes it sets.  With [shouldStart] it also opens
    the serial port and starts [check_incoming_serial_data] on a thread. *)
Definition __init__ : t :=
  {| temperature := VInt 0; pressure := VInt 0; humidity := VInt 0;
     gas_resistance := VInt 0; altitude := VInt 0; connected := false |}.

Definition set_temperature (v : value) (self : t) : t :=
  {| temperature := v; pressure := pressure self; humidity := humidity self;
     gas_resistance := gas_resistance self; altitude := altitude self;
     connected := connected self |}.

Definition set_pressure (v : value) (self : t) : t :=
  {| temperature := temperature self; pressure := v; humidity := humidity self;
     gas_resistance := gas_resistance self; altitude := altitude self;
     connected := connected self |}.

Definition set_humidity (v : value) (self : t) : t :=
  {| temperature := temperature self; pressure := pressure self; humidity := v;
     gas_resistance := gas_resistance self; altitude := altitude self;
     connected := connected self |}.

Definition set_gas_resistance (v : value) (self : t) : t :=
  {| temperature := temperature self; pressure := pressure self;
     humidity := humidity self; gas_resistance := v; altitude := altitude self;
     connected := connected self |}.

Definition set_altitude (v : value) (self : t) : t :=
  {| temperature := temperature self; pressure := pressure self;
     humidity := humidity self; gas_resistance := gas_resistance self;
     altitude := v; connected := connected self |}.

(** The numeric tokens of a line: what is after the first colon, searched
    with the pattern. *)
Definition tokens (input_data : text) : list text :=
  findall sensor_pattern (last_item (split1 58%N input_data)).

(** Lines 100-103.  The list on the left of the assignment takes exactly
    five items; the right side is unpacked before any attribute is set. *)
Definition process_input_sensor_data (input_data : text) : Py t unit :=
  let input_data := last_item (split1 58%N input_data) in
  print "{}" [OText input_data] ;;
  match findall sensor_pattern input_data with
  | [a; b; c; d; e] =>
      modify (set_temperature (VStr a)) ;;
      modify (set_pressure (VStr b)) ;;
      modify (set_humidity (VStr c)) ;;
      modify (set_gas_resistance (VStr d)) ;;
      modify (set_altitude (VStr e))
  | found =>
      if (length found <? 5)%nat then
        raise (ValueError ("not enough values to unpack (expected 5, got "
                           ++ decimal (length found) ++ ")"))
      else
        raise (ValueError "too many values to unpack (expected 5)")
  end.

(** What the serial port gives in one turn of the loop: the number of
    bytes waiting, and the result of [self.ser.readline().decode()], which
    raises when the bytes are not UTF-8 or the port fails. *)
Record serial_io := {
  in_waiting : Z;
  readline_decode : outcome text
}.

(** One turn of [while(1)], lines 107-113. *)
Definition check_incoming_serial_data_turn (io : serial_io) : Py t unit :=
  if (in_waiting io >? 0)%Z then
    try_except
      (line <- lift (readline_decode io) ;;
       let line := strip CR_LF line in
       process_input_sensor_data line)
      (fun e => print "{}" [OExn e])
  else ret tt.

(** The loop of lines 105-113 on the turns the port has given so far.  It
    has no exit: [Returned] means that it is still running after these
    turns, [Raised] that an exception left it and ended the thread. *)
Definition check_incoming_serial_data (turns : list serial_io) : Py t unit :=
  for_each turns check_incoming_serial_data_turn.

End RemoteDevice.

(** ** class Device *)

(** A message of the MQTT client. *)
Record MQTTMessage := {
  payload : bytes;
  topic : text;
  qos : Z
}.

Module Device.

Record t := {
  proximity : value;
  ambient_lux : value;
  led_on : value;
  connected : bool;
  accel_x : value;
  accel_y : value;
  accel_z : value
}.

Definition __init__ : t :=
  {| proximity := VInt 0; ambient_lux := VInt 0; led_on := VBool false;
     connected := false; accel_x := VInt 0; accel_y := VInt 0;
     accel_z := VInt 0 |}.

Definition set_led_on (v : value) (self : t) : t :=
  {| proximity := proximity self; ambient_lux := ambient_lux self; led_on := v;
     connected := connected self; accel_x := accel_x self;
     accel_y := accel_y self; accel_z := accel_z self |}.

Definition set_connected (b : bool) (self : t) : t :=
  {| proximity := proximity self; ambient_lux := ambient_lux self;
     led_on := led_on self; connected := b; accel_x := accel_x self;
     accel_y := accel_y self; accel_z := accel_z self |}.

Definition set_accel (xyz : value * value * value) (self : t) : t :=
  let '(x, y, z) := xyz in
  {| proximity := proximity self; ambient_lux := ambient_lux self;
     led_on := led_on self; connected := connected self; accel_x := x;
     accel_y := y; accel_z := z |}.

(** Line 136; [accelerometer] is what [motion.accelerometer()] returns. *)
Definition update_sensor_data (accelerometer : value * value * value)
  : Py t unit :=
  modify (set_accel accelerometer).

(** Lines 139-147.  [self.connected] is set by the callbacks on the
    client's thread: [connected_at n] is the value the attribute has the
    n-th time this call reads it (counting from 0).  [remaining] is
    [timeout - total_time], so [total_time < timeout] is [remaining <> 0].
    The loop returns the number of reads made. *)
Fixpoint wait_loop (connected_at : nat -> bool) (remaining : nat)
  (reads : nat) : Py t nat :=
  if negb (connected_at reads) then
    match remaining with
    | S remaining' =>
        emit (Sleep 1) ;;
        wait_loop connected_at remaining' (S reads)
    | O => ret (S reads)
    end
  else ret (S reads).

Definition wait_for_connection (connected_at : nat -> bool) (timeout : Z)
  : Py t unit :=
  reads <- wait_loop connected_at (Z.to_nat timeout) 0 ;;
  if negb (connected_at reads) then
    raise (RuntimeError "Could not connect to MQTT bridge.")
  else ret tt.

(** Lines 149-157; [error_str(rc)] is printed from the code [rc]. *)
Definition on_connect (rc : Z) : Py t unit :=
  print "Connection Result: {}" [OInt rc] ;;
  modify (set_connected true).

Definition on_disconnect (rc : Z) : Py t unit :=
  print "Disconnected: {}" [OInt rc] ;;
  modify (set_connected false).

Section OnMessage.

(** [json.loads(payload.decode('utf-8'))]: the decoded document, or the
    exception of the decoder. *)
Variable json_loads : bytes -> outcome value.

(** Lines 170-197.  [data] is assigned only when the decoder returns. *)
Definition on_message (message : MQTTMessage) : Py t unit :=
  let payload := payload message in
  print "Received message '{}' on topic '{}' with Qos {}"
        [OBytes payload; OText (topic message); OInt (qos message)] ;;
  match payload with
  | [] =>
      print "No payload" []
  | _ :: _ =>
      data <- try_except
                (emit (JsonLoads payload) ;;
                 data <- lift (json_loads payload) ;;
                 ret (Some data))
                (fun e =>
                   print "Exception caught: {}" [OExn e] ;;
                   ret None) ;;
      data <- load_local "data" data ;;
      new <- lift (getitem data (str "led_on")) ;;
      current <- get led_on ;;
      if py_ne new current then
        modify (set_led_on new) ;;
        current <- get led_on ;;
        if truthy current then
          print "Led turned on." [] ;;
          emit LedsOn
        else
          print "Led turned off." [] ;;
          emit LedsOff
      else ret tt
  end.

End OnMessage.

End Device.

(** ** create_jwt *)

Section CreateJwt.

(** [utcnow n]: what the n-th call of [datetime.datetime.utcnow()] of the
    process returns. *)
Variable utcnow : nat -> datetime.

(** [open(path, 'r')] and [f.read()]: the content, or the exception. *)
Variable read_file : text -> outcome text.

(** [jwt.encode(claims, key, algorithm=...)]: the encoded token, or the
    exception for a key or an algorithm it does not accept. *)
Variable jwt_encode : jwt_claims -> text -> text -> outcome text.

(** The state is the number of clock readings taken so far. *)
Definition now : Py nat datetime :=
  fun n => ([], S n, Returned (utcnow n)).

(** Lines 66-77. *)
Definition create_jwt (project_id private_key_file algorithm : text)
  : Py nat text :=
  issued <- now ;;
  later <- now ;;
  let token := {| iat := issued;
                  exp := (later + timedelta_minutes 60)%Z;
                  aud := project_id |} in
  private_key <- lift (read_file private_key_file) ;;
  print "Creating JWT using {} from private key file {}"
        [OText algorithm; OText private_key_file] ;;
  emit (JwtEncode token private_key algorithm) ;;
  lift (jwt_encode token private_key algorithm).

End CreateJwt.

(** ** The publishing loop of main *)

(** What the environment gives to one iteration: the accelerometer, the
    formatted local time, and the attributes of the remote device as the
    loop reads them (the reader thread writes them). *)
Record sample := {
  accelerometer : value * value * value;
  strftime_now : text;
  remote : RemoteDevice.t
}.

(** The dict of line 306, from the device, the remote device and the
    formatted time. *)
Definition telemetry (device : Device.t) (remoteDevice : RemoteDevice.t)
  (time : text) : value :=
  VDict
    [ (str "proximity", Device.proximity device);
      (str "luminance", Device.ambient_lux device);
      (str "accel_x", Device.accel_x device);
      (str "accel_y", Device.accel_y device);
      (str "accel_z", Device.accel_z device);
      (str "time", VStr time);
      (str "temperature", RemoteDevice.temperature remoteDevice);
      (str "pressure", RemoteDevice.pressure remoteDevice);
      (str "humidity", RemoteDevice.humidity remoteDevice);
      (str "gas_resistance", RemoteDevice.gas_resistance remoteDevice);
      (str "altitude", RemoteDevice.altitude remoteDevice) ].

(** Lines 302-311. *)
Definition publish_once (mqtt_telemetry_topic : text) (env : sample)
  : Py Device.t unit :=
  Device.update_sensor_data (accelerometer env) ;;
  device <- get (fun self => self) ;;
  let payload :=
    Dumps (telemetry device (remote env) (strftime_now env)) in
  print "Publishing payload {}" [OJson payload] ;;
  print "on mqtt telemetry topic {}" [OText mqtt_telemetry_topic] ;;
  emit (Publish mqtt_telemetry_topic payload 1) ;;
  emit (Sleep 1).

(** Lines 299-311: [for _ in range(args.num_messages)]; [env i] is the
    environment of iteration [i]. *)
Definition main_loop (num_messages : Z) (mqtt_telemetry_topic : text)
  (env : nat -> sample) : Py Device.t unit :=
  for_each (range num_messages)
           (fun i => publish_once mqtt_telemetry_topic (env i)).

(** ** Reading traces *)

(** Seconds slept. *)
Fixpoint slept (t : trace) : Z :=
  match t with
  | [] => 0
  | Sleep n :: t' => n + slept t'
  | _ :: t' => slept t'
  end.

Definition is_leds (e : event) : bool :=
  match e with
  | LedsOn | LedsOff => true
  | _ => false
  end.

Definition is_json_loads (e : event) : bool :=
  match e with
  | JsonLoads _ => true
  | _ => false
  end.

Definition is_publish (e : event) : bool :=
  match e with
  | Publish _ _ _ => true
  | _ => false
  end.

(** The claims handed to [jwt.encode], in order. *)
Fixpoint encoded_claims (t : trace) : list jwt_claims :=
  match t with
  | [] => []
  | JwtEncode c _ _ :: t' => c :: encoded_claims t'
  | _ :: t' => encoded_claims t'
  end.

(** The objects published, in order. *)
Fixpoint published (t : trace) : list value :=
  match t with
  | [] => []
  | Publish _ (Dumps v) _ :: t' => v :: published t'
  | _ :: t' => published t'
  end.

(** The keys of a JSON object. *)
Definition keys (v : value) : list text :=
  match v with
  | VDict items => map fst items
  | _ => []
  end.

Definition telemetry_fields : list text :=
  map str ["proximity"; "luminance"; "accel_x"; "accel_y"; "accel_z"; "time";
           "temperature"; "pressure"; "humidity"; "gas_resistance";
           "altitude"]%string.

(** Projections of a finished computation. *)
Definition trace_of {S A} (r : trace * S * outcome A) : trace := fst (fst r).
Definition state_of {S A} (r : trace * S * outcome A) : S := snd (fst r).
Definition outcome_of {S A} (r : trace * S * outcome A) : outcome A := snd r.

(** Characters an atom takes at least. *)
Definition min_width (a : atom) : nat :=
  match a with
  | One _ | Plus _ => 1
  | Opt _ | Star _ => 0
  end.

Definition min_widths (atoms : alternative) : nat :=
  fold_right (fun a n => min_width a + n)%nat 0%nat atoms.

(** The first line the handler prints. *)
Definition received (message : MQTTMessage) : event :=
  Print "Received message '{}' on topic '{}' with Qos {}"
        [OBytes (payload message); OText (topic message); OInt (qos message)].

(** The object sent by iteration [i] of a loop started on [self]. *)
Definition sent (self : Device.t) (env : nat -> sample) (i : nat) : value :=
  telemetry (Device.set_accel (accelerometer (env i)) self) (remote (env i))
            (strftime_now (env i)).

(** The calls of one iteration of the publishing loop that sends [v]. *)
Definition iteration_trace (mqtt_telemetry_topic : text) (v : value) : trace :=
  [ Print "Publishing payload {}" [OJson (Dumps v)];
    Print "on mqtt telemetry topic {}" [OText mqtt_telemetry_topic];
    Publish mqtt_telemetry_topic (Dumps v) 1;
    Sleep 1 ].

(** ** The payload of the token *)

(** jwt.encode writes a datetime claim as the whole seconds since the
    epoch, [timegm(d.utctimetuple())]: the microseconds are dropped. *)
Definition numeric_date (d : datetime) : Z := (d / 1000000)%Z.

(** The payload of the token: what the token decodes to. *)
Record token_payload := {
  iat_seconds : Z;
  exp_seconds : Z;
  audience : text
}.

(** The payload that jwt.encode signs for the dict it is handed. *)
Definition payload_of (claims : jwt_claims) : token_payload :=
  {| iat_seconds := numeric_date (iat claims);
     exp_seconds := numeric_date (exp claims);
     audience := aud claims |}.

(** The payloads of the tokens built, in order. *)
Definition token_payloads (t : trace) : list token_payload :=
  map payload_of (encoded_claims t).

(** ** Concrete inputs *)

Definition quote : string := String "034"%char EmptyString.

(** The bytes of the document that turns the led on: led_on set to true. *)
Definition led_on_true : bytes :=
  list_byte_of_string ("{" ++ quote ++ "led_on" ++ quote ++ ": true}").

(** A decoder that knows two documents and rejects every other payload;
    it stands for [json.loads] where the handler is run on concrete
    payloads. *)
Definition small_json_loads (p : bytes) : outcome value :=
  let s := string_of_list_byte p in
  if String.eqb s (string_of_list_byte led_on_true) then
    Returned (VDict [(str "led_on", VBool true)])
  else if String.eqb s "{}" then
    Returned (VDict [])
  else Raised (LibraryError "JSONDecodeError").

(** A clock that advances one microsecond between two readings. *)
Definition ticking_clock (n : nat) : datetime := Z.of_nat n.

(** A connection flag that is first seen set at the read [k]. *)
Definition connected_from (k : nat) (n : nat) : bool := (k <=? n)%nat.

(** A clock read just before and just after the end of a second: 999999
    microseconds, then one more at each reading. *)
Definition clock_across_a_second (n : nat) : datetime :=
  (999999 + Z.of_nat n)%Z.

(** A connection flag that is set at the second read only: on_connect and
    then on_disconnect, as for a connection that the broker refuses. *)
Definition set_then_cleared (n : nat) : bool := Nat.eqb n 1.

(** The numbers 1.0, 2, 3.5, 4, 5. *)
Definition five_numbers : list value :=
  [VFloat (Finite 1 0); VInt 2; VFloat (Finite 7 (-1)); VInt 4; VInt 5].

(** The five readings of a remote device, in the order of the
    assignment of line 103. *)
Definition five_readings (r : RemoteDevice.t) : list value :=
  [RemoteDevice.temperature r; RemoteDevice.pressure r;
   RemoteDevice.humidity r; RemoteDevice.gas_resistance r;
   RemoteDevice.altitude r].

(** ** The tokens of the serial parser *)

(** A run of decimal digits. *)
Definition all_decimal (t : text) : bool := forallb is_decimal t.

(** A match of the second alternative: one digit or more. *)
Definition integer_form (t : text) : Prop :=
  t <> [] /\ all_decimal t = true.

(** A match of the first alternative: an optional sign, digits, a point
    and one digit or more. *)
Definition decimal_form (t : text) : Prop :=
  exists sign whole fraction,
    t = sign ++ whole ++ 46%N :: fraction /\
    (sign = [] \/ sign = str "-" \/ sign = str "+") /\
    all_decimal whole = true /\
    fraction <> [] /\ all_decimal fraction = true.

(** [scanned s found]: the texts of [found] lie in [s] one after the
    other, from left to right, without overlap. *)
Inductive scanned : text -> list text -> Prop :=
| scanned_end (gap : text) : scanned gap []
| scanned_match (gap t rest : text) (found : list text) :
    scanned rest found -> scanned (gap ++ t ++ rest) (t :: found).

(** Number of decimal digits of a text. *)
Definition count_decimal (s : text) : nat :=
  length (filter is_decimal s).

(** The five readings of a remote device. *)
Definition readings (r : RemoteDevice.t) : list value :=
  [RemoteDevice.temperature r; RemoteDevice.pressure r;
   RemoteDevice.humidity r; RemoteDevice.gas_resistance r;
   RemoteDevice.altitude r].

(** A turn of the read loop that delivers a line with five tokens. *)
Definition delivers_reading (io : RemoteDevice.serial_io) : bool :=
  (RemoteDevice.in_waiting io >? 0)%Z &&
  match RemoteDevice.readline_decode io with
  | Returned line =>
      Nat.eqb (length (RemoteDevice.tokens (strip CR_LF line))) 5
  | Raised _ => false
  end.

(** What a reading can hold: the 0 of [__init__] or the text of a token. *)
Definition reading_form (v : value) : Prop :=
  v = VInt 0 \/
  exists t, v = VStr t /\ (integer_form t \/ decimal_form t).

(** The remote device with the five readings replaced by the texts
    [a] to [e]. *)
Definition with_readings (a b c d e : text) (self : RemoteDevice.t)
  : RemoteDevice.t :=
  {| RemoteDevice.temperature := VStr a;
     RemoteDevice.pressure := VStr b;
     RemoteDevice.humidity := VStr c;
     RemoteDevice.gas_resistance := VStr d;
     RemoteDevice.altitude := VStr e;
     RemoteDevice.connected := RemoteDevice.connected self |}.

(** A turn of the read loop in which the port delivers [line]. *)
Definition delivered (waiting : Z) (line : text) : RemoteDevice.serial_io :=
  {| RemoteDevice.in_waiting := waiting;
     RemoteDevice.readline_decode := Returned line |}.

(** ** Runs of the message handler *)

(** The handler called on the messages of a list, one after the other, as
    long as it returns. *)
Definition on_messages (json_loads : bytes -> outcome value)
  (messages : list MQTTMessage) : Py Device.t unit :=
  for_each messages (Device.on_message json_loads).

(** The led calls that a sequence of wanted states asks for, from the
    state [current]: one call for each change. *)
Fixpoint switches (current : bool) (wanted : list bool) : list event :=
  match wanted with
  | [] => []
  | b :: rest =>
      if Bool.eqb b current then switches current rest
      else (if b then LedsOn else LedsOff) :: switches b rest
  end.

(** The bytes of a JSON document written with ' in the place of the
    double quote. *)
Fixpoint double_quoted (s : string) : string :=
  match s with
  | EmptyString => EmptyString
  | String c s' =>
      String (if Ascii.eqb c "'"%char then "034"%char else c) (double_quoted s')
  end.

Definition json_bytes (s : string) : bytes :=
  list_byte_of_string (double_quoted s).

(** A message on the config topic of device d. *)
Definition config_message (p : bytes) : MQTTMessage :=
  {| payload := p; topic := str "/devices/d/config"; qos := 1 |}.

(** A decoder for a few documents: the two led documents, one with other
    fields beside led_on, an array, a led_on that is a text, a led_on that
    is NaN; it rejects every other payload. *)
Definition sample_json_loads (p : bytes) : outcome value :=
  let s := string_of_list_byte p in
  let holds (document : string) := String.eqb s (double_quoted document) in
  if holds "{'led_on': true}"%string then
    Returned (VDict [(str "led_on", VBool true)])
  else if holds "{'led_on': false}"%string then
    Returned (VDict [(str "led_on", VBool false)])
  else if holds "{'fan': 3, 'led_on': true}"%string then
    Returned (VDict [(str "fan", VInt 3); (str "led_on", VBool true)])
  else if holds "[true]"%string then
    Returned (VList [VBool true])
  else if holds "{'led_on': 'off'}"%string then
    Returned (VDict [(str "led_on", VStr (str "off"))])
  else if holds "{'led_on': NaN}"%string then
    Returned (VDict [(str "led_on", VFloat NaN)])
  else Raised (LibraryError "JSONDecodeError").

(** ** main *)

(** Calls on the MQTT client. *)
Inductive client_call :=
| NewClient (client_id : text)
| UsernamePwSet (username password : text)
| TlsSet (ca_certs : text)
| Connect (host : text) (port : Z)
| LoopStart
| Subscribe (topic : text) (qos : Z)
| Disconnect
| LoopStop.

(** What main does, in order: the calls of the functions it runs, its
    calls on the client, and the start of the remote device (the serial
    port opened, then the reader thread started). *)
Inductive step :=
| Env (e : event)
| Mqtt (c : client_call)
| OpenSerial (port : text) (baudrate : Z)
| StartReader.

Module Main.

(** The arguments as parse_command_line_args returns them. *)
Record args := {
  project_id : text;
  registry_id : text;
  device_id : text;
  private_key_file : text;
  algorithm : text;
  cloud_region : text;
  ca_certs : text;
  num_messages : Z;
  mqtt_bridge_hostname : text;
  mqtt_bridge_port : Z;
  message_type : text;
  no_remote_device : bool
}.

(** The environment of a run.  The library calls that can fail here are
    the reading of the key file, jwt.encode, client.tls_set, serial.Serial
    and client.connect; the other calls on the client return. *)
Record world := {
  utcnow : nat -> datetime;
  read_file : text -> outcome text;
  jwt_encode : jwt_claims -> text -> text -> outcome text;
  tls_set : outcome unit;
  open_serial : outcome unit;
  connect : outcome unit;
  connected_at : nat -> bool;
  samples : nat -> sample
}.

(** The state main works on: the clock readings taken and the device. *)
Record process := {
  clock_reads : nat;
  device : Device.t
}.

Definition run (A : Type) : Type := process -> list step * process * outcome A.

Definition bind_run {A B} (m : run A) (k : A -> run B) : run B :=
  fun p =>
    match m p with
    | (t, p', Returned a) =>
        match k a p' with
        | (t', p'', r) => (t ++ t', p'', r)
        end
    | (t, p', Raised e) => (t, p', Raised e)
    end.

(** A computation on the clock, and one on the device, inside main. *)
Definition with_clock {A} (m : Py nat A) : run A :=
  fun p =>
    match m (clock_reads p) with
    | (t, n, r) => (map Env t, {| clock_reads := n; device := device p |}, r)
    end.

Definition with_device {A} (m : Py Device.t A) : run A :=
  fun p =>
    match m (device p) with
    | (t, d, r) => (map Env t, {| clock_reads := clock_reads p; device := d |}, r)
    end.

(** A step with the result that the library gives. *)
Definition does (s : step) (result : outcome unit) : run unit :=
  fun p => ([s], p, result).

Definition skip : run unit := fun p => ([], p, Returned tt).

Declare Scope run_scope.
Delimit Scope run_scope with run.
Notation "x <- m ;; k" := (bind_run m (fun x => k))
  (at level 61, m at next level, right associativity) : run_scope.
Notation "m ;; k" := (bind_run m (fun _ => k))
  (at level 61, right associativity) : run_scope.

(** Lines 256-260, 287 and 290. *)
Definition client_id (a : args) : text :=
  str "projects/" ++ project_id a ++ str "/locations/" ++ cloud_region a
  ++ str "/registries/" ++ registry_id a ++ str "/devices/" ++ device_id a.

Definition mqtt_telemetry_topic (a : args) : text :=
  str "/devices/" ++ device_id a ++ str "/events".

Definition mqtt_config_topic (a : args) : text :=
  str "/devices/" ++ device_id a ++ str "/config".

(** What the loop of main reads in iteration [i]: without a reader thread
    (RemoteDevice(False)) the remote device stays as constructed. *)
Definition loop_sample (w : world) (a : args) (i : nat) : sample :=
  {| accelerometer := accelerometer (samples w i);
     strftime_now := strftime_now (samples w i);
     remote := if no_remote_device a then RemoteDevice.__init__
               else remote (samples w i) |}.

(** Lines 251-315, after the arguments are parsed.  The assignments of
    the callbacks (lines 275-279) call nothing.  The callbacks run on the
    thread of the client; they write [connected], which main reads through
    [connected_at], and [led_on], which main does not read. *)
Definition main (w : world) (a : args) : run unit :=
  (does (Mqtt (NewClient (client_id a))) (Returned tt) ;;
   password <- with_clock (create_jwt (utcnow w) (read_file w) (jwt_encode w)
                             (project_id a) (private_key_file a) (algorithm a)) ;;
   does (Mqtt (UsernamePwSet (str "unused") password)) (Returned tt) ;;
   does (Mqtt (TlsSet (ca_certs a))) (tls_set w) ;;
   with_device (modify (fun _ => Device.__init__)) ;;
   (if negb (no_remote_device a) then
      does (OpenSerial (str "/dev/ttyACM0") 115200) (open_serial w) ;;
      does StartReader (Returned tt)
    else skip) ;;
   does (Mqtt (Connect (mqtt_bridge_hostname a) (mqtt_bridge_port a))) (connect w) ;;
   does (Mqtt LoopStart) (Returned tt) ;;
   with_device (Device.wait_for_connection (connected_at w) 5) ;;
   does (Mqtt (Subscribe (mqtt_config_topic a) 1)) (Returned tt) ;;
   with_device (main_loop (num_messages a) (mqtt_telemetry_topic a)
                          (loop_sample w a)) ;;
   does (Mqtt Disconnect) (Returned tt) ;;
   does (Mqtt LoopStop) (Returned tt) ;;
   with_device (print "Finished loop successfully. Goodbye!" []))%run.

(** Projections of a finished run. *)
Definition steps_of {A} (r : list step * process * outcome A) : list step :=
  fst (fst r).
Definition result_of {A} (r : list step * process * outcome A) : outcome A :=
  snd r.

(** A process at its start. *)
Definition start : process :=
  {| clock_reads := 0; device := Device.__init__ |}.

End Main.

(** The calls that end the session with the broker. *)
Definition is_cleanup (s : step) : bool :=
  match s with
  | Mqtt Disconnect | Mqtt LoopStop => true
  | _ => false
  end.

(** The calls that reach the broker: connect, subscribe, publish. *)
Definition is_network (s : step) : bool :=
  match s with
  | Mqtt (Connect _ _) | Mqtt (Subscribe _ _) | Env (Publish _ _ _) => true
  | _ => false
  end.

(** The calls on the client and the publications, without the prints and
    the sleeps. *)
Definition is_client_step (s : step) : bool :=
  match s with
  | Mqtt _ | Env (Publish _ _ _) => true
  | _ => false
  end.

(** The calls of the functions main runs, among its steps. *)
Fixpoint events_of (steps : list step) : trace :=
  match steps with
  | [] => []
  | Env e :: rest => e :: events_of rest
  | _ :: rest => events_of rest
  end.

(** The steps that start the remote device. *)
Definition is_serial (s : step) : bool :=
  match s with
  | OpenSerial _ _ | StartReader => true
  | _ => false
  end.

(** A run with three messages, the connection seen after one second. *)
Definition sample_world : Main.world :=
  {| Main.utcnow := ticking_clock;
     Main.read_file := fun _ => Returned (str "key");
     Main.jwt_encode := fun _ _ _ => Returned (str "token");
     Main.tls_set := Returned tt;
     Main.open_serial := Returned tt;
     Main.connect := Returned tt;
     Main.connected_at := connected_from 1;
     Main.samples := fun _ =>
       {| accelerometer := (VInt 0, VInt 0, VInt 1);
          strftime_now := str "2019-01-01 00:00:00";
          remote := RemoteDevice.__init__ |} |}.

Definition sample_args : Main.args :=
  {| Main.project_id := str "my-project-id";
     Main.registry_id := str "my-registry";
     Main.device_id := str "d";
     Main.private_key_file := str "rsa_private.pem";
     Main.algorithm := str "RS256";
     Main.cloud_region := str "us-central1";
     Main.ca_certs := str "roots.pem";
     Main.num_messages := 3;
     Main.mqtt_bridge_hostname := str "mqtt.googleapis.com";
     Main.mqtt_bridge_port := 8883;
     Main.message_type := str "event";
     Main.no_remote_device := false |}.


(** The sample world with a broker that never answers. *)
Definition unanswered_world : Main.world :=
  {| Main.utcnow := ticking_clock;
     Main.read_file := fun _ => Returned (str "key");
     Main.jwt_encode := fun _ _ _ => Returned (str "token");
     Main.tls_set := Returned tt;
     Main.open_serial := Returned tt;
     Main.connect := Returned tt;
     Main.connected_at := fun _ => false;
     Main.samples := Main.samples sample_world |}.

(** The sample world without the board on the serial port. *)
Definition boardless_world : Main.world :=
  {| Main.utcnow := ticking_clock;
     Main.read_file := fun _ => Returned (str "key");
     Main.jwt_encode := fun _ _ _ => Returned (str "token");
     Main.tls_set := Returned tt;
     Main.open_serial := Raised (LibraryError "SerialException");
     Main.connect := Returned tt;
     Main.connected_at := connected_from 1;
     Main.samples := Main.samples sample_world |}.

(** An object that reports 0 for the five readings of the remote device. *)
Definition reports_no_readings (v : value) : Prop :=
  exists items,
    v = VDict items /\
    lookup (str "temperature") items = Some (VInt 0) /\
    lookup (str "pressure") items = Some (VInt 0) /\
    lookup (str "humidity") items = Some (VInt 0) /\
    lookup (str "gas_resistance") items = Some (VInt 0) /\
    lookup (str "altitude") items = Some (VInt 0).

(** The value of a field of a published object. *)
Definition field (name : string) (v : value) : option value :=
  match v with
  | VDict items => lookup (str name) items
  | _ => None
  end.

(** * Properties *)

(** ** The monad *)

(** A handler that only prints absorbs every exception of the body. *)
Lemma try_except_print_returns {S} (body : Py S unit) (template : string)
  (args : exn -> list obj) (s : S) :
  outcome_of (try_except body (fun e => print template (args e)) s) = Returned tt.
Proof.
  unfold try_except, outcome_of, print, emit.
  destruct (body s) as [[t s'] [[]|e]]; reflexivity.
Qed.

(** The handler leaves the object as the body left it. *)
Lemma try_except_print_state {S} (body : Py S unit) (template : string)
  (args : exn -> list obj) (s : S) :
  state_of (try_except body (fun e => print template (args e)) s)
  = state_of (body s).
Proof.
  unfold try_except, state_of, print, emit.
  destruct (body s) as [[t s'] [[]|e]]; reflexivity.
Qed.

Lemma for_each_returns {S A} (body : A -> Py S unit) :
  (forall x s, outcome_of (body x s) = Returned tt) ->
  forall items s, outcome_of (for_each items body s) = Returned tt.
Proof.
  intros Hbody items. induction items as [|x rest IH]; intros s.
  - reflexivity.
  - simpl. unfold bind. specialize (Hbody x s).
    destruct (body x s) as [[t s'] r]. unfold outcome_of in Hbody. simpl in Hbody.
    subst r. specialize (IH s').
    destruct (for_each rest body s') as [[t' s''] r']. exact IH.
Qed.

(** ** The pattern *)

Lemma match_star_suffix (c : codepoint -> bool) (next : text -> option text)
  (w : nat) :
  (forall s r, next s = Some r -> exists p, s = p ++ r /\ (w <= length p)%nat) ->
  forall s r, match_star c next s = Some r ->
              exists p, s = p ++ r /\ (w <= length p)%nat.
Proof.
  intros Hnext s. induction s as [|x s' IH]; intros r H; simpl in H.
  - now apply Hnext.
  - destruct (c x).
    + destruct (match_star c next s') as [r'|] eqn:E.
      * inversion H; subst r'. destruct (IH r eq_refl) as [p [Hp Hw]].
        exists (x :: p). split; [now rewrite Hp | simpl; lia].
      * now apply Hnext.
    + now apply Hnext.
Qed.

(** A match is a prefix of the text, at least as long as the atoms need. *)
Lemma match_atoms_suffix (atoms : alternative) :
  forall s r, match_atoms atoms s = Some r ->
              exists p, s = p ++ r /\ (min_widths atoms <= length p)%nat.
Proof.
  induction atoms as [|a atoms' IH]; intros s r H.
  - simpl in H. inversion H. exists []. split; [reflexivity | simpl; lia].
  - assert (Hcons : forall x s' r, match_atoms atoms' s' = Some r ->
              exists p, x :: s' = p ++ r /\ (S (min_widths atoms') <= length p)%nat).
    { intros x s' r0 H0. destruct (IH _ _ H0) as [p [Hp Hw]].
      exists (x :: p). split; [now rewrite Hp | simpl; lia]. }
    assert (Hstar : forall c x s' r, match_star c (match_atoms atoms') s' = Some r ->
              exists p, x :: s' = p ++ r /\ (S (min_widths atoms') <= length p)%nat).
    { intros c x s' r0 H0.
      destruct (match_star_suffix c (match_atoms atoms') _ IH _ _ H0) as [p [Hp Hw]].
      exists (x :: p). split; [now rewrite Hp | simpl; lia]. }
    destruct a as [c|c|c|c]; simpl in H |- *.
    + destruct s as [|x s']; [discriminate|].
      destruct (c x); [|discriminate]. now apply Hcons.
    + destruct s as [|x s']; [now apply IH|].
      destruct (c x); [|now apply IH].
      destruct (match_atoms atoms' s') as [r'|] eqn:E; [|now apply IH].
      inversion H; subst r'. destruct (Hcons x _ _ E) as [p [Hp Hw]].
      exists p. split; [exact Hp | lia].
    + now apply (match_star_suffix c (match_atoms atoms') _ IH).
    + destruct s as [|x s']; [discriminate|].
      destruct (c x); [|discriminate]. now apply (Hstar c).
Qed.

(** No match of the sensor pattern is empty, so [findall_from] always
    moves on by the length of the match. *)
Lemma sensor_pattern_consumes (s r : text) :
  match_here sensor_pattern s = Some r ->
  exists p, s = p ++ r /\ (1 <= length p)%nat.
Proof.
  unfold sensor_pattern, match_here. intros H.
  destruct (match_atoms _ s) as [r1|] eqn:E1.
  - inversion H; subst r1. destruct (match_atoms_suffix _ _ _ E1) as [p [Hp Hw]].
    exists p. split; [exact Hp | simpl in Hw; lia].
  - destruct (match_atoms [Plus is_decimal] s) as [r2|] eqn:E2; [|discriminate].
    inversion H; subst r2. destruct (match_atoms_suffix _ _ _ E2) as [p [Hp Hw]].
    exists p. split; [exact Hp | simpl in Hw; lia].
Qed.

(** ** The peripheral reader *)

(** With a number of tokens other than five the unpacking raises before
    any attribute is written. *)
Lemma process_input_sensor_data_unpack_fails (input_data : text)
  (self : RemoteDevice.t) :
  length (RemoteDevice.tokens input_data) <> 5%nat ->
  state_of (RemoteDevice.process_input_sensor_data input_data self) = self /\
  exists msg,
    outcome_of (RemoteDevice.process_input_sensor_data input_data self)
    = Raised (ValueError msg).
Proof.
  unfold RemoteDevice.tokens, RemoteDevice.process_input_sensor_data.
  intros H.
  destruct (findall sensor_pattern (last_item (split1 58%N input_data)))
    as [|a [|b [|c [|d [|e [|f l]]]]]]; simpl in H; try lia;
    (split; [reflexivity | eexists; reflexivity]).
Qed.

Lemma check_incoming_serial_data_turn_returns (io : RemoteDevice.serial_io)
  (self : RemoteDevice.t) :
  outcome_of (RemoteDevice.check_incoming_serial_data_turn io self) = Returned tt.
Proof.
  unfold RemoteDevice.check_incoming_serial_data_turn.
  destruct (RemoteDevice.in_waiting io >? 0)%Z.
  - apply (try_except_print_returns _ "{}" (fun e => [OExn e])).
  - reflexivity.
Qed.

(** A line that cannot be read or decoded is logged and changes nothing. *)
Lemma undecodable_serial_line_is_ignored (self : RemoteDevice.t) (waiting : Z)
  (e : exn) :
  (waiting > 0)%Z ->
  RemoteDevice.check_incoming_serial_data_turn
    {| RemoteDevice.in_waiting := waiting;
       RemoteDevice.readline_decode := Raised e |} self
  = ([Print "{}" [OExn e]], self, Returned tt).
Proof.
  intros Hw. unfold RemoteDevice.check_incoming_serial_data_turn. simpl.
  destruct (waiting >? 0)%Z eqn:E; [reflexivity | lia].
Qed.

(** C2: a serial line with fewer than five numeric tokens leaves the
    readings (the whole object) as they were, the exception of the
    unpacking is caught inside the turn of the loop, and whatever the port
    delivers, no exception leaves the read loop: after any sequence of
    turns it is still running. *)
Theorem malformed_serial_line_is_ignored
  (self : RemoteDevice.t) (waiting : Z) (line : text) :
  (length (RemoteDevice.tokens (strip CR_LF line)) < 5)%nat ->
  let turn := RemoteDevice.check_incoming_serial_data_turn
                {| RemoteDevice.in_waiting := waiting;
                   RemoteDevice.readline_decode := Returned line |} self in
  (state_of turn = self /\ outcome_of turn = Returned tt) /\
  (exists msg,
     outcome_of (RemoteDevice.process_input_sensor_data (strip CR_LF line) self)
     = Raised (ValueError msg)) /\
  (forall turns self',
     outcome_of (RemoteDevice.check_incoming_serial_data turns self')
     = Returned tt).
Proof.
  intros Hshort turn.
  assert (Hne : length (RemoteDevice.tokens (strip CR_LF line)) <> 5%nat) by lia.
  destruct (process_input_sensor_data_unpack_fails _ self Hne) as [Hstate Hraise].
  repeat split.
  - subst turn. unfold RemoteDevice.check_incoming_serial_data_turn. simpl.
    destruct (waiting >? 0)%Z; [|reflexivity].
    rewrite (try_except_print_state _ "{}" (fun e => [OExn e])).
    unfold bind, lift. simpl.
    unfold state_of in *.
    destruct (RemoteDevice.process_input_sensor_data (strip CR_LF line) self)
      as [[t s'] r]. exact Hstate.
  - apply check_incoming_serial_data_turn_returns.
  - exact Hraise.
  - intros turns self'. apply for_each_returns.
    apply check_incoming_serial_data_turn_returns.
Qed.

(** The line "1,2,3" with three tokens, received with its line end. *)
Lemma malformed_serial_line_is_ignored_witness :
  (length (RemoteDevice.tokens (strip CR_LF (str "x:1,2,3" ++ [13; 10]%N))) < 5)%nat /\
  state_of (RemoteDevice.check_incoming_serial_data_turn
              {| RemoteDevice.in_waiting := 9;
                 RemoteDevice.readline_decode :=
                   Returned (str "x:1,2,3" ++ [13; 10]%N) |}
              RemoteDevice.__init__) = RemoteDevice.__init__.
Proof.
  split.
  - vm_compute. lia.
  - apply (malformed_serial_line_is_ignored RemoteDevice.__init__ 9
             (str "x:1,2,3" ++ [13; 10]%N)).
    vm_compute. lia.
Defined.

(** C6 as the code has it: on the line "x:1.0,2,3.5,4,5" the part up to
    the first colon is dropped and the five matched texts "1.0", "2",
    "3.5", "4", "5" are stored, as text, in this order in temperature,
    pressure, humidity, gas_resistance, altitude; the same holds when the
    line comes through the read loop with its line end. *)
Theorem well_formed_line_sets_five_readings (self : RemoteDevice.t) :
  last_item (split1 58%N (str "x:1.0,2,3.5,4,5")) = str "1.0,2,3.5,4,5" /\
  RemoteDevice.process_input_sensor_data (str "x:1.0,2,3.5,4,5") self
  = ([Print "{}" [OText (str "1.0,2,3.5,4,5")]],
     {| RemoteDevice.temperature := VStr (str "1.0");
        RemoteDevice.pressure := VStr (str "2");
        RemoteDevice.humidity := VStr (str "3.5");
        RemoteDevice.gas_resistance := VStr (str "4");
        RemoteDevice.altitude := VStr (str "5");
        RemoteDevice.connected := RemoteDevice.connected self |},
     Returned tt) /\
  RemoteDevice.check_incoming_serial_data
    [{| RemoteDevice.in_waiting := 17;
        RemoteDevice.readline_decode :=
          Returned (str "x:1.0,2,3.5,4,5" ++ [13; 10]%N) |}] self
  = ([Print "{}" [OText (str "1.0,2,3.5,4,5")]],
     {| RemoteDevice.temperature := VStr (str "1.0");
        RemoteDevice.pressure := VStr (str "2");
        RemoteDevice.humidity := VStr (str "3.5");
        RemoteDevice.gas_resistance := VStr (str "4");
        RemoteDevice.altitude := VStr (str "5");
        RemoteDevice.connected := RemoteDevice.connected self |},
     Returned tt).
Proof.
  repeat split.
Qed.

(** C6 as stated fails: what is stored for the line "x:1.0,2,3.5,4,5" is
    not the five numbers 1.0, 2, 3.5, 4, 5; each reading is a text, which
    no number equals ([==] is false for each of the five). *)
Lemma stored_readings_are_texts_not_numbers :
  let stored :=
    five_readings
      (state_of (RemoteDevice.process_input_sensor_data
                   (str "x:1.0,2,3.5,4,5") RemoteDevice.__init__)) in
  stored <> five_numbers /\
  map (fun pair => py_eq (fst pair) (snd pair)) (combine stored five_numbers)
  = [false; false; false; false; false].
Proof.
  split.
  - discriminate.
  - reflexivity.
Qed.

(** C4 (the code at the failing input): on the line "x:-5,1,2,3,4" the
    first token is "5": the sign of the integer is not part of the match,
    while the sign of the decimal "-5.0" is. *)
Theorem signed_integer_loses_its_sign (self : RemoteDevice.t) :
  findall sensor_pattern (str "-5") = [str "5"] /\
  findall sensor_pattern (str "-5.0") = [str "-5.0"] /\
  RemoteDevice.process_input_sensor_data (str "x:-5,1,2,3,4") self
  = ([Print "{}" [OText (str "-5,1,2,3,4")]],
     {| RemoteDevice.temperature := VStr (str "5");
        RemoteDevice.pressure := VStr (str "1");
        RemoteDevice.humidity := VStr (str "2");
        RemoteDevice.gas_resistance := VStr (str "3");
        RemoteDevice.altitude := VStr (str "4");
        RemoteDevice.connected := RemoteDevice.connected self |},
     Returned tt).
Proof.
  repeat split.
Qed.

(** ** The message handler *)

(** The handler writes no attribute but [led_on]. *)
Lemma on_message_writes_led_on_only (json_loads : bytes -> outcome value)
  (message : MQTTMessage) (self : Device.t) :
  let r := Device.on_message json_loads message self in
  state_of r = Device.set_led_on (Device.led_on (state_of r)) self.
Proof.
  destruct self as [px lux led conn ax ay az]. unfold Device.on_message.
  destruct (payload message) as [|b p]; [reflexivity|].
  unfold bind, try_except, emit, lift, print, ret. simpl.
  destruct (json_loads (b :: p)) as [data|e]; [|reflexivity]. simpl.
  destruct (getitem data (str "led_on")) as [new|e]; [|reflexivity]. simpl.
  destruct (py_ne new led); [|reflexivity]. simpl.
  destruct (truthy new); reflexivity.
Qed.

(** What the handler does with a document that has the field. *)
Lemma on_message_decoded (json_loads : bytes -> outcome value)
  (message : MQTTMessage) (self : Device.t) (data new : value) :
  payload message <> [] ->
  json_loads (payload message) = Returned data ->
  getitem data (str "led_on") = Returned new ->
  Device.on_message json_loads message self
  = if py_ne new (Device.led_on self) then
      if truthy new then
        ([received message; JsonLoads (payload message);
          Print "Led turned on." []; LedsOn],
         Device.set_led_on new self, Returned tt)
      else
        ([received message; JsonLoads (payload message);
          Print "Led turned off." []; LedsOff],
         Device.set_led_on new self, Returned tt)
    else
      ([received message; JsonLoads (payload message)], self, Returned tt).
Proof.
  intros Hne Hload Hget. unfold Device.on_message, received.
  destruct (payload message) as [|b p] eqn:Hp; [congruence|].
  unfold bind, try_except, emit, lift, print, ret. simpl.
  rewrite Hload. simpl. rewrite Hget. simpl.
  destruct (py_ne new (Device.led_on self)); [|reflexivity]. simpl.
  destruct (truthy new); reflexivity.
Qed.

(** C7: on an empty payload the handler prints its two lines and returns:
    the decoder is not called (no call in the trace, and the result is the
    same for every decoder) and the device is as before. *)
Theorem empty_payload_is_no_configuration
  (json_loads : bytes -> outcome value) (message : MQTTMessage)
  (self : Device.t) :
  payload message = [] ->
  Device.on_message json_loads message self
  = ([received message; Print "No payload" []], self, Returned tt) /\
  filter is_json_loads (trace_of (Device.on_message json_loads message self)) = [] /\
  forall other_loads,
    Device.on_message other_loads message self
    = Device.on_message json_loads message self.
Proof.
  intros Hp. unfold Device.on_message, received. rewrite Hp.
  repeat split.
Qed.

Lemma empty_payload_is_no_configuration_witness :
  Device.on_message small_json_loads
    {| payload := []; topic := str "/devices/d/config"; qos := 1 |}
    Device.__init__
  = ([received {| payload := []; topic := str "/devices/d/config"; qos := 1 |};
      Print "No payload" []],
     Device.__init__, Returned tt).
Proof.
  apply (empty_payload_is_no_configuration small_json_loads
           {| payload := []; topic := str "/devices/d/config"; qos := 1 |}
           Device.__init__).
  reflexivity.
Defined.

(** C1 (the code on a payload the decoder rejects): the error is logged,
    the device is unchanged and no led call is made, but the handler then
    reads the local variable [data], which was never assigned, and an
    UnboundLocalError leaves the handler. *)
Theorem undecodable_payload_raises_unbound_local
  (json_loads : bytes -> outcome value) (message : MQTTMessage)
  (self : Device.t) (e : exn) :
  payload message <> [] ->
  json_loads (payload message) = Raised e ->
  Device.on_message json_loads message self
  = ([received message; JsonLoads (payload message);
      Print "Exception caught: {}" [OExn e]],
     self, Raised (UnboundLocalError "data")).
Proof.
  intros Hne Hload. unfold Device.on_message, received.
  destruct (payload message) as [|b p] eqn:Hp; [congruence|].
  unfold bind, try_except, emit, lift, print, ret. simpl.
  rewrite Hload. reflexivity.
Qed.

Lemma undecodable_payload_raises_unbound_local_witness :
  outcome_of
    (Device.on_message small_json_loads
       {| payload := list_byte_of_string "not json";
          topic := str "/devices/d/config"; qos := 1 |}
       Device.__init__)
  = Raised (UnboundLocalError "data").
Proof.
  rewrite (undecodable_payload_raises_unbound_local small_json_loads
             {| payload := list_byte_of_string "not json";
                topic := str "/devices/d/config"; qos := 1 |}
             Device.__init__ (LibraryError "JSONDecodeError")).
  - reflexivity.
  - discriminate.
  - reflexivity.
Defined.

(** C10: a payload that is not empty and decodes to an object without the
    key 'led_on': after the line that reports the message, the lookup
    raises KeyError, which leaves the handler; the device is unchanged. *)
Theorem object_without_led_on_raises_key_error
  (json_loads : bytes -> outcome value) (message : MQTTMessage)
  (self : Device.t) (items : list (text * value)) :
  payload message <> [] ->
  json_loads (payload message) = Returned (VDict items) ->
  lookup (str "led_on") items = None ->
  Device.on_message json_loads message self
  = ([received message; JsonLoads (payload message)],
     self, Raised (KeyError (str "led_on"))).
Proof.
  intros Hne Hload Hkey. unfold Device.on_message, received.
  destruct (payload message) as [|b p] eqn:Hp; [congruence|].
  unfold bind, try_except, emit, lift, print, ret. simpl.
  rewrite Hload. simpl. unfold getitem. rewrite Hkey. reflexivity.
Qed.

Lemma object_without_led_on_raises_key_error_witness :
  Device.on_message small_json_loads
    {| payload := list_byte_of_string "{}";
       topic := str "/devices/d/config"; qos := 1 |}
    Device.__init__
  = ([received {| payload := list_byte_of_string "{}";
                  topic := str "/devices/d/config"; qos := 1 |};
      JsonLoads (list_byte_of_string "{}")],
     Device.__init__, Raised (KeyError (str "led_on"))).
Proof.
  apply (object_without_led_on_raises_key_error small_json_loads
           {| payload := list_byte_of_string "{}";
              topic := str "/devices/d/config"; qos := 1 |}
           Device.__init__ []).
  - discriminate.
  - reflexivity.
  - reflexivity.
Defined.

(** C3: [led_on] changes only when the message decodes to a document
    whose led_on differs ([!=]) from the current value, and led calls are
    made only then; a message whose led_on equals the current value is a
    no-op; of two consecutive messages with led_on true the second is
    always a no-op, and the first changes the state (once, with one call
    of leds.on) when the state differed from true before. *)
Theorem led_on_changes_only_on_a_different_value
  (json_loads : bytes -> outcome value) (message : MQTTMessage)
  (self : Device.t) :
  let r := Device.on_message json_loads message self in
  (Device.led_on (state_of r) <> Device.led_on self \/
   filter is_leds (trace_of r) <> [] ->
   exists data new,
     json_loads (payload message) = Returned data /\
     getitem data (str "led_on") = Returned new /\
     py_ne new (Device.led_on self) = true /\
     Device.led_on (state_of r) = new) /\
  (forall data new,
     payload message <> [] ->
     json_loads (payload message) = Returned data ->
     getitem data (str "led_on") = Returned new ->
     py_ne new (Device.led_on self) = false ->
     r = ([received message; JsonLoads (payload message)], self, Returned tt)) /\
  (payload message = led_on_true ->
   json_loads led_on_true = Returned (VDict [(str "led_on", VBool true)]) ->
   let r2 := Device.on_message json_loads message (state_of r) in
   (r2 = ([received message; JsonLoads led_on_true], state_of r, Returned tt)) /\
   (py_ne (VBool true) (Device.led_on self) = true ->
    r = ([received message; JsonLoads led_on_true;
          Print "Led turned on." []; LedsOn],
         Device.set_led_on (VBool true) self, Returned tt))).
Proof.
  intros r. split; [|split].
  - subst r. unfold Device.on_message.
    destruct (payload message) as [|b p] eqn:Hp.
    + unfold state_of, trace_of. simpl. intros [H|H]; congruence.
    + unfold bind, try_except, emit, lift, print, ret, state_of, trace_of. simpl.
      destruct (json_loads (b :: p)) as [data|e] eqn:Hload; simpl;
        [|intros [H|H]; congruence].
      destruct (getitem data (str "led_on")) as [new|e] eqn:Hget; simpl;
        [|intros [H|H]; congruence].
      destruct (py_ne new (Device.led_on self)) eqn:Hdiff; simpl;
        [|intros [H|H]; congruence].
      intros _. exists data, new. repeat split; try assumption.
      destruct (truthy new); reflexivity.
  - intros data new Hne Hload Hget Hsame. subst r.
    rewrite (on_message_decoded json_loads message self _ _ Hne Hload Hget).
    now rewrite Hsame.
  - intros Hp Hload r2.
    assert (Hne : payload message <> []) by (rewrite Hp; discriminate).
    assert (Hload' : json_loads (payload message)
                     = Returned (VDict [(str "led_on", VBool true)]))
      by (now rewrite Hp).
    assert (Hget : getitem (VDict [(str "led_on", VBool true)]) (str "led_on")
                   = Returned (VBool true)) by reflexivity.
    assert (Hr : r = if py_ne (VBool true) (Device.led_on self) then
                       ([received message; JsonLoads (payload message);
                         Print "Led turned on." []; LedsOn],
                        Device.set_led_on (VBool true) self, Returned tt)
                     else ([received message; JsonLoads (payload message)],
                           self, Returned tt)).
    { subst r. now rewrite (on_message_decoded json_loads message self _ _ Hne Hload' Hget). }
    split.
    + subst r2.
      rewrite (on_message_decoded json_loads message (state_of r) _ _ Hne Hload' Hget).
      rewrite Hr, Hp.
      destruct (py_ne (VBool true) (Device.led_on self)) eqn:Hdiff.
      * reflexivity.
      * unfold state_of. simpl. now rewrite Hdiff.
    + intros Hdiff. rewrite Hr, Hdiff, Hp. reflexivity.
Qed.

(** Two messages with led_on true to a new device: one change, one call
    of leds.on, then nothing. *)
Lemma led_on_changes_only_on_a_different_value_witness :
  let message := {| payload := led_on_true;
                    topic := str "/devices/d/config"; qos := 1 |} in
  let r := Device.on_message small_json_loads message Device.__init__ in
  let r2 := Device.on_message small_json_loads message (state_of r) in
  (Device.led_on (state_of r) = VBool true /\
   filter is_leds (trace_of r) = [LedsOn]) /\
  (state_of r2 = state_of r /\ filter is_leds (trace_of r2) = []).
Proof.
  intros message r r2.
  destruct (led_on_changes_only_on_a_different_value
              small_json_loads message Device.__init__) as [_ [_ Htwice]].
  destruct (Htwice eq_refl eq_refl) as [Hsecond Hfirst].
  fold r in Hsecond, Hfirst. fold r2 in Hsecond.
  rewrite (Hfirst eq_refl) in *.
  split; [split; reflexivity|].
  rewrite Hsecond. split; reflexivity.
Defined.

(** ** Waiting for the connection *)

Lemma slept_repeat (n : nat) : slept (repeat (Sleep 1) n) = Z.of_nat n.
Proof.
  induction n as [|n IH]; [reflexivity|].
  cbn [repeat slept]. rewrite IH. lia.
Qed.

(** While the flag is seen unset the loop sleeps until no time remains. *)
Lemma wait_loop_unconnected (connected_at : nat -> bool) (self : Device.t) :
  forall remaining reads,
    (forall n, (n < reads + S remaining)%nat -> connected_at n = false) ->
    Device.wait_loop connected_at remaining reads self
    = (repeat (Sleep 1) remaining, self, Returned (S (reads + remaining))).
Proof.
  induction remaining as [|remaining IH]; intros reads Hoff; simpl.
  - rewrite (Hoff reads) by lia. simpl. unfold ret. do 3 f_equal. lia.
  - rewrite (Hoff reads) by lia. simpl. unfold bind, emit.
    rewrite IH by (intros n Hn; apply Hoff; lia).
    simpl. do 3 f_equal. lia.
Qed.

(** The loop ends at the first read that sees the flag set. *)
Lemma wait_loop_connected (connected_at : nat -> bool) (self : Device.t)
  (k : nat) :
  connected_at k = true ->
  forall sleeps remaining reads,
    (reads + sleeps = k)%nat ->
    (sleeps <= remaining)%nat ->
    (forall n, (reads <= n < k)%nat -> connected_at n = false) ->
    Device.wait_loop connected_at remaining reads self
    = (repeat (Sleep 1) sleeps, self, Returned (S k)).
Proof.
  intros Hon. induction sleeps as [|sleeps IH]; intros remaining reads Hk Hrem Hoff.
  - replace reads with k by lia.
    destruct remaining; simpl; rewrite Hon; reflexivity.
  - destruct remaining as [|remaining]; [lia|]. simpl.
    rewrite (Hoff reads) by lia. simpl. unfold bind, emit.
    rewrite (IH remaining (S reads)) by (try lia; intros n Hn; apply Hoff; lia).
    reflexivity.
Qed.

(** C8 as the code has it: when the flag is never seen set, the call
    sleeps one second [timeout] times and then raises RuntimeError, so for
    a timeout of 5 the error comes after 5 seconds of sleep (between 5 and
    6); when the flag is first seen set after [k <= timeout] seconds, the
    loop ends after these [k] seconds, and the call returns without
    raising if the flag is still set at the read that follows the loop;
    if it was cleared in between, the call raises. *)
Theorem wait_for_connection_polls_until_timeout
  (connected_at : nat -> bool) (timeout : Z) (self : Device.t) :
  (0 <= timeout)%Z ->
  let r := Device.wait_for_connection connected_at timeout self in
  ((forall n, connected_at n = false) ->
   r = (repeat (Sleep 1) (Z.to_nat timeout), self,
        Raised (RuntimeError "Could not connect to MQTT bridge.")) /\
   slept (trace_of r) = timeout /\
   (timeout = 5%Z -> (5 <= slept (trace_of r) <= 6)%Z)) /\
  (forall k,
     (k <= Z.to_nat timeout)%nat ->
     (forall n, (n < k)%nat -> connected_at n = false) ->
     connected_at k = true ->
     r = (repeat (Sleep 1) k, self,
          if connected_at (S k) then Returned tt
          else Raised (RuntimeError "Could not connect to MQTT bridge."))).
Proof.
  intros Hpos r. split.
  - intros Hoff.
    assert (Hr : r = (repeat (Sleep 1) (Z.to_nat timeout), self,
                      Raised (RuntimeError "Could not connect to MQTT bridge."))).
    { subst r. unfold Device.wait_for_connection, bind.
      rewrite wait_loop_unconnected by (intros; apply Hoff).
      rewrite Hoff. simpl. now rewrite app_nil_r. }
    rewrite Hr. unfold trace_of. simpl. rewrite slept_repeat.
    repeat split; lia.
  - intros k Hk Hoff Hon. subst r.
    unfold Device.wait_for_connection, bind.
    rewrite (wait_loop_connected connected_at self k Hon k
               (Z.to_nat timeout) 0 eq_refl Hk)
      by (intros n Hn; apply Hoff; lia).
    destruct (connected_at (S k)); simpl; now rewrite app_nil_r.
Qed.

(** [wait_for_connection(5)] with no connection: five sleeps, then the
    error; with the connection seen at the third read and kept: two
    sleeps; with the flag set at the second read only: one sleep, then the
    error. *)
Lemma wait_for_connection_polls_until_timeout_witness :
  (0 <= 5)%Z /\
  Device.wait_for_connection (fun _ => false) 5 Device.__init__
  = ([Sleep 1; Sleep 1; Sleep 1; Sleep 1; Sleep 1], Device.__init__,
     Raised (RuntimeError "Could not connect to MQTT bridge.")) /\
  Device.wait_for_connection (connected_from 2) 5 Device.__init__
  = ([Sleep 1; Sleep 1], Device.__init__, Returned tt) /\
  Device.wait_for_connection set_then_cleared 5 Device.__init__
  = ([Sleep 1], Device.__init__,
     Raised (RuntimeError "Could not connect to MQTT bridge.")).
Proof.
  split; [lia|]. split; [|split].
  - apply (wait_for_connection_polls_until_timeout (fun _ => false) 5
             Device.__init__); [lia | reflexivity].
  - apply (proj2 (wait_for_connection_polls_until_timeout (connected_from 2) 5
                    Device.__init__ ltac:(lia)) 2%nat).
    + vm_compute. lia.
    + intros n Hn. unfold connected_from. apply Nat.leb_gt. exact Hn.
    + reflexivity.
  - apply (proj2 (wait_for_connection_polls_until_timeout set_then_cleared 5
                    Device.__init__ ltac:(lia)) 1%nat).
    + vm_compute. lia.
    + intros n Hn. replace n with 0%nat by lia. reflexivity.
    + reflexivity.
Defined.

(** C8 as stated fails in its last part: a flag that becomes true before
    the timeout elapses and is cleared again (on_connect, then
    on_disconnect) does not make the call return: it raises. *)
Lemma flag_set_before_the_timeout_can_still_raise :
  (exists k, (k <= 5)%nat /\ set_then_cleared k = true) /\
  outcome_of (Device.wait_for_connection set_then_cleared 5 Device.__init__)
  = Raised (RuntimeError "Could not connect to MQTT bridge.") /\
  ~ (forall connected_at : nat -> bool,
       (exists k, (k <= 5)%nat /\ connected_at k = true) ->
       outcome_of (Device.wait_for_connection connected_at 5 Device.__init__)
       = Returned tt).
Proof.
  assert (Hset : exists k, (k <= 5)%nat /\ set_then_cleared k = true).
  { exists 1%nat. split; [lia | reflexivity]. }
  split; [exact Hset|]. split; [reflexivity|].
  intros H. specialize (H set_then_cleared Hset). discriminate H.
Qed.

(** ** The publishing loop *)

Lemma set_accel_twice (a b : value * value * value) (self : Device.t) :
  Device.set_accel a (Device.set_accel b self) = Device.set_accel a self.
Proof.
  destruct a as [[x y] z], b as [[x' y'] z']. reflexivity.
Qed.

Lemma publish_once_run (mqtt_telemetry_topic : text) (env : sample)
  (self : Device.t) :
  publish_once mqtt_telemetry_topic env self
  = (iteration_trace mqtt_telemetry_topic
       (telemetry (Device.set_accel (accelerometer env) self) (remote env)
                  (strftime_now env)),
     Device.set_accel (accelerometer env) self, Returned tt).
Proof.
  reflexivity.
Qed.

Lemma main_loop_trace (mqtt_telemetry_topic : text) (env : nat -> sample)
  (self : Device.t) :
  forall count start self',
    (forall a, Device.set_accel a self' = Device.set_accel a self) ->
    let r := for_each (seq start count)
               (fun i => publish_once mqtt_telemetry_topic (env i)) self' in
    trace_of r
    = flat_map (fun i => iteration_trace mqtt_telemetry_topic (sent self env i))
               (seq start count) /\
    outcome_of r = Returned tt.
Proof.
  induction count as [|count IH]; intros start self' Hsame.
  - split; reflexivity.
  - specialize (IH (S start) (Device.set_accel (accelerometer (env start)) self')).
    destruct IH as [IHt IHo].
    { intros a. rewrite set_accel_twice. apply Hsame. }
    cbn [seq for_each flat_map]. unfold bind.
    rewrite publish_once_run.
    unfold trace_of, outcome_of in *.
    destruct (for_each (seq (S start) count) _ _) as [[t s] o].
    cbn [fst snd] in *. split; [|exact IHo].
    unfold sent at 1. rewrite <- (Hsame (accelerometer (env start))).
    now rewrite IHt.
Qed.

Lemma published_iterations (mqtt_telemetry_topic : text) (f : nat -> value)
  (l : list nat) :
  published (flat_map (fun i => iteration_trace mqtt_telemetry_topic (f i)) l)
  = map f l.
Proof.
  induction l as [|i l IH]; [reflexivity|].
  cbn [flat_map map]. unfold iteration_trace at 1. simpl. now rewrite IH.
Qed.

Lemma slept_iterations (mqtt_telemetry_topic : text) (f : nat -> value)
  (l : list nat) :
  slept (flat_map (fun i => iteration_trace mqtt_telemetry_topic (f i)) l)
  = Z.of_nat (length l).
Proof.
  induction l as [|i l IH]; [reflexivity|].
  cbn [flat_map length]. unfold iteration_trace at 1.
  cbn [app slept]. rewrite IH. lia.
Qed.

(** C9: the loop runs [num_messages] times (not at all for a negative
    number); each iteration prints two lines, publishes with qos 1 the
    JSON object written out below, and sleeps one second.  The object has
    exactly the eleven fields proximity, luminance, accel_x, accel_y,
    accel_z, time, temperature, pressure, humidity, gas_resistance,
    altitude: proximity and luminance from the device, the acceleration
    just read from the accelerometer, the formatted time, and the five
    readings of the remote device, each under its own name. *)
Theorem main_loop_publishes_eleven_fields
  (num_messages : Z) (mqtt_telemetry_topic : text) (env : nat -> sample)
  (self : Device.t) :
  let r := main_loop num_messages mqtt_telemetry_topic env self in
  let object (i : nat) : value :=
    VDict
      [ (str "proximity", Device.proximity self);
        (str "luminance", Device.ambient_lux self);
        (str "accel_x", fst (fst (accelerometer (env i))));
        (str "accel_y", snd (fst (accelerometer (env i))));
        (str "accel_z", snd (accelerometer (env i)));
        (str "time", VStr (strftime_now (env i)));
        (str "temperature", RemoteDevice.temperature (remote (env i)));
        (str "pressure", RemoteDevice.pressure (remote (env i)));
        (str "humidity", RemoteDevice.humidity (remote (env i)));
        (str "gas_resistance", RemoteDevice.gas_resistance (remote (env i)));
        (str "altitude", RemoteDevice.altitude (remote (env i))) ] in
  trace_of r
  = flat_map (fun i =>
                [ Print "Publishing payload {}" [OJson (Dumps (object i))];
                  Print "on mqtt telemetry topic {}" [OText mqtt_telemetry_topic];
                  Publish mqtt_telemetry_topic (Dumps (object i)) 1;
                  Sleep 1 ])
             (range num_messages) /\
  outcome_of r = Returned tt /\
  published (trace_of r) = map object (range num_messages) /\
  length (published (trace_of r)) = Z.to_nat num_messages /\
  slept (trace_of r) = Z.max 0 num_messages /\
  Forall (fun v => keys v = telemetry_fields) (published (trace_of r)) /\
  length telemetry_fields = 11%nat /\ NoDup telemetry_fields.
Proof.
  intros r object.
  assert (Hobject : forall i, sent self env i = object i).
  { intros i. unfold sent, telemetry, object.
    destruct (accelerometer (env i)) as [[x y] z]. reflexivity. }
  destruct (main_loop_trace mqtt_telemetry_topic env self
              (Z.to_nat num_messages) 0 self (fun a => eq_refl)) as [Ht Ho].
  fold (range num_messages) in Ht, Ho.
  change (for_each (range num_messages)
            (fun i => publish_once mqtt_telemetry_topic (env i)) self)
    with r in Ht, Ho.
  assert (Hpublished : published (trace_of r) = map object (range num_messages)).
  { rewrite Ht, published_iterations. apply map_ext. exact Hobject. }
  split; [|split; [|split; [|split; [|split; [|split; [|split]]]]]].
  - rewrite Ht. apply flat_map_ext. intros i.
    unfold iteration_trace. now rewrite Hobject.
  - exact Ho.
  - exact Hpublished.
  - rewrite Hpublished. unfold range. now rewrite length_map, length_seq.
  - rewrite Ht, slept_iterations. unfold range. rewrite length_seq. lia.
  - rewrite Hpublished. apply Forall_forall. intros v Hv.
    apply in_map_iff in Hv. destruct Hv as [i [Hi _]]. subst v. reflexivity.
  - reflexivity.
  - unfold telemetry_fields.
    repeat (constructor; [vm_compute; intuition discriminate|]).
    constructor.
Qed.

(** ** The token *)

Lemma numeric_date_after_sixty_minutes (d : datetime) :
  numeric_date (d + timedelta_minutes 60)%Z = (numeric_date d + 3600)%Z.
Proof.
  unfold numeric_date.
  change (timedelta_minutes 60) with (3600 * 1000000)%Z.
  apply Z.div_add. discriminate.
Qed.

(** C5 as the code has it: the token that create_jwt returns is the one
    jwt.encode builds; its payload holds the project id as audience, the
    first clock reading in whole seconds as issued-at and, as expiry, 60
    minutes after a second clock reading in whole seconds.  The expiry is
    60 minutes after issued-at exactly when the two readings fall in the
    same second. *)
Theorem create_jwt_expiry_follows_second_reading
  (utcnow : nat -> datetime) (read_file : text -> outcome text)
  (jwt_encode : jwt_claims -> text -> text -> outcome text)
  (project_id private_key_file algorithm private_key token : text)
  (reads : nat) :
  let claims := {| iat := utcnow reads;
                   exp := (utcnow (S reads) + timedelta_minutes 60)%Z;
                   aud := project_id |} in
  read_file private_key_file = Returned private_key ->
  jwt_encode claims private_key algorithm = Returned token ->
  let r := create_jwt utcnow read_file jwt_encode project_id private_key_file
                      algorithm reads in
  r = ([Print "Creating JWT using {} from private key file {}"
              [OText algorithm; OText private_key_file];
        JwtEncode claims private_key algorithm],
       S (S reads), Returned token) /\
  token_payloads (trace_of r)
  = [{| iat_seconds := numeric_date (utcnow reads);
        exp_seconds := (numeric_date (utcnow (S reads)) + 3600)%Z;
        audience := project_id |}] /\
  Forall (fun p =>
            audience p = project_id /\
            (exp_seconds p - iat_seconds p
             = 3600 + (numeric_date (utcnow (S reads)) - numeric_date (utcnow reads)))%Z /\
            (exp_seconds p = iat_seconds p + 3600
             <-> numeric_date (utcnow (S reads)) = numeric_date (utcnow reads))%Z)
         (token_payloads (trace_of r)).
Proof.
  intros claims Hfile Henc r.
  assert (Hr : r = ([Print "Creating JWT using {} from private key file {}"
                           [OText algorithm; OText private_key_file];
                     JwtEncode claims private_key algorithm],
                    S (S reads), Returned token)).
  { subst r. unfold create_jwt, bind, now, lift, print, emit. simpl.
    rewrite Hfile. simpl. fold claims. rewrite Henc. reflexivity. }
  assert (Hp : token_payloads (trace_of r)
               = [{| iat_seconds := numeric_date (utcnow reads);
                     exp_seconds := (numeric_date (utcnow (S reads)) + 3600)%Z;
                     audience := project_id |}]).
  { rewrite Hr. unfold token_payloads, trace_of, payload_of, claims.
    cbn [fst encoded_claims map iat exp aud].
    now rewrite numeric_date_after_sixty_minutes. }
  split; [exact Hr|]. split; [exact Hp|].
  rewrite Hp. constructor; [|constructor].
  cbn [audience exp_seconds iat_seconds]. repeat split; lia.
Qed.

(** Both readings in the first second: the token runs from 0 to 3600. *)
Lemma create_jwt_expiry_follows_second_reading_witness :
  token_payloads
    (trace_of
       (create_jwt ticking_clock (fun _ => Returned (str "key"))
          (fun _ _ _ => Returned (str "token")) (str "my-project-id")
          (str "rsa_private.pem") (str "RS256") 0))
  = [{| iat_seconds := 0; exp_seconds := 3600;
        audience := str "my-project-id" |}].
Proof.
  rewrite (proj1 (proj2 (create_jwt_expiry_follows_second_reading ticking_clock
             (fun _ => Returned (str "key"))
             (fun _ _ _ => Returned (str "token")) (str "my-project-id")
             (str "rsa_private.pem") (str "RS256") (str "key") (str "token") 0
             eq_refl eq_refl))).
  reflexivity.
Defined.

(** C5 as stated fails when a second ends between the two readings of the
    clock: read at 0.999999 s and at 1.000000 s, the token has issued-at 0
    and expiry 3601, one second more than 60 minutes. *)
Lemma create_jwt_expiry_not_exactly_60_minutes :
  token_payloads
    (trace_of
       (create_jwt clock_across_a_second (fun _ => Returned (str "key"))
          (fun _ _ _ => Returned (str "token")) (str "my-project-id")
          (str "rsa_private.pem") (str "RS256") 0))
  = [{| iat_seconds := 0; exp_seconds := 3601;
        audience := str "my-project-id" |}] /\
  ~ (forall p,
       In p (token_payloads
               (trace_of
                  (create_jwt clock_across_a_second
                     (fun _ => Returned (str "key"))
                     (fun _ _ _ => Returned (str "token")) (str "my-project-id")
                     (str "rsa_private.pem") (str "RS256") 0))) ->
       exp_seconds p = (iat_seconds p + 3600)%Z).
Proof.
  split; [reflexivity|].
  intros H.
  specialize (H {| iat_seconds := 0; exp_seconds := 3601;
                   audience := str "my-project-id" |} (or_introl eq_refl)).
  discriminate H.
Qed.

(** * Further properties *)

(** ** Splitting at the first colon *)

Lemma split1_without_separator (sep : codepoint) (s : text) :
  ~ In sep s -> split1 sep s = [s].
Proof.
  induction s as [|x s IH]; intros Hnot; simpl.
  - reflexivity.
  - destruct (N.eqb_spec x sep) as [->|Hx].
    + exfalso. apply Hnot. now left.
    + rewrite IH; [reflexivity|]. intros Hin. apply Hnot. now right.
Qed.

Lemma split1_at_first_separator (sep : codepoint) (before after : text) :
  ~ In sep before ->
  split1 sep (before ++ sep :: after) = [before; after].
Proof.
  induction before as [|x before IH]; intros Hnot; simpl.
  - now rewrite N.eqb_refl.
  - destruct (N.eqb_spec x sep) as [->|Hx].
    + exfalso. apply Hnot. now left.
    + rewrite IH; [reflexivity|]. intros Hin. apply Hnot. now right.
Qed.

(** X1: the parser reads what follows the first colon of the line, and the
    whole line when it has no colon; later colons stay in the text that is
    searched. *)
Theorem tokens_are_searched_after_the_first_colon (before after : text) :
  ~ In 58%N before ->
  RemoteDevice.tokens (before ++ 58%N :: after) = findall sensor_pattern after /\
  RemoteDevice.tokens before = findall sensor_pattern before.
Proof.
  intros Hnot. unfold RemoteDevice.tokens.
  rewrite split1_at_first_separator, split1_without_separator by assumption.
  split; reflexivity.
Qed.

Lemma tokens_are_searched_after_the_first_colon_witness :
  RemoteDevice.tokens (str "T:7:8") = [str "7"; str "8"] /\
  RemoteDevice.tokens (str "T") = [].
Proof.
  destruct (tokens_are_searched_after_the_first_colon (str "T") (str "7:8"))
    as [Hafter Hwhole].
  - vm_compute. intuition discriminate.
  - split; [exact Hafter | exact Hwhole].
Defined.

(** ** The form and the place of the tokens *)

Lemma match_star_inv (c : codepoint -> bool) (next : text -> option text) :
  forall s r, match_star c next s = Some r ->
              exists p q, s = p ++ q /\ forallb c p = true /\ next q = Some r.
Proof.
  induction s as [|x s IH]; intros r H; simpl in H.
  - exists [], []. auto.
  - destruct (c x) eqn:Hc.
    + destruct (match_star c next s) as [r'|] eqn:E.
      * inversion H; subst r'. destruct (IH r eq_refl) as [p [q [Hs [Hp Hq]]]].
        exists (x :: p), q. simpl. rewrite Hc, Hp, Hs. auto.
      * exists [], (x :: s). auto.
    + exists [], (x :: s). auto.
Qed.

Lemma one_of_sign (x : codepoint) :
  one_of "-+" x = true -> [x] = str "-" \/ [x] = str "+".
Proof.
  unfold one_of. change (str "-+") with [45%N; 43%N]. cbn [existsb]. intros H.
  destruct (N.eqb_spec x 45) as [E|_]; [subst x; now left|].
  destruct (N.eqb_spec x 43) as [E|_]; [subst x; now right|]. discriminate.
Qed.

Lemma one_of_point (x : codepoint) : one_of "." x = true -> x = 46%N.
Proof.
  unfold one_of. change (str ".") with [46%N]. cbn [existsb]. intros H.
  destruct (N.eqb_spec x 46) as [E|_]; [exact E | discriminate].
Qed.

Lemma integer_alternative_inv (s r : text) :
  match_atoms [Plus is_decimal] s = Some r ->
  exists p, s = p ++ r /\ integer_form p.
Proof.
  simpl. destruct s as [|x s]; [discriminate|].
  destruct (is_decimal x) eqn:Hx; [|discriminate]. intros H.
  destruct (match_star_inv _ _ _ _ H) as [p [q [Hs [Hp Hq]]]].
  inversion Hq; subst q. exists (x :: p). split; [now rewrite Hs|].
  split; [discriminate|]. unfold all_decimal. simpl. now rewrite Hx, Hp.
Qed.

Lemma decimal_alternative_inv (s r : text) :
  match_atoms [Opt (one_of "-+"); Star is_decimal; One (one_of "."); Plus is_decimal] s
  = Some r ->
  exists p, s = p ++ r /\ decimal_form p.
Proof.
  assert (Hrest : forall s1,
            match_atoms [Star is_decimal; One (one_of "."); Plus is_decimal] s1 = Some r ->
            exists whole fraction,
              s1 = whole ++ 46%N :: fraction ++ r /\
              all_decimal whole = true /\ fraction <> [] /\
              all_decimal fraction = true).
  { intros s1 H. cbn [match_atoms] in H.
    destruct (match_star_inv _ _ _ _ H) as [whole [s2 [Hs1 [Hwhole H2]]]].
    destruct s2 as [|x s3]; [discriminate|].
    destruct (one_of "." x) eqn:Hx; [|discriminate].
    apply one_of_point in Hx. subst x.
    destruct s3 as [|y s4]; [discriminate|].
    destruct (is_decimal y) eqn:Hy; [|discriminate].
    destruct (match_star_inv _ _ _ _ H2) as [f [q [Hs4 [Hf Hq]]]].
    inversion Hq; subst q. exists whole, (y :: f).
    repeat split.
    - rewrite Hs1, Hs4. reflexivity.
    - exact Hwhole.
    - discriminate.
    - unfold all_decimal. simpl. now rewrite Hy, Hf. }
  assert (Hnosign : forall s1,
            match_atoms [Star is_decimal; One (one_of "."); Plus is_decimal] s1 = Some r ->
            exists p, s1 = p ++ r /\ decimal_form p).
  { intros s1 H. destruct (Hrest s1 H) as [whole [fraction [Hs1 [Hw [Hne Hf]]]]].
    exists (whole ++ 46%N :: fraction). split.
    - rewrite Hs1, <- app_assoc. reflexivity.
    - exists [], whole, fraction. auto. }
  intros H. cbn [match_atoms] in H.
  destruct s as [|x s']; [now apply Hnosign|].
  destruct (one_of "-+" x) eqn:Hx; [|now apply Hnosign].
  match type of H with
  | match ?m with Some _ => _ | None => _ end = _ => destruct m as [r'|] eqn:E
  end; [|now apply Hnosign].
  inversion H; subst r'.
  destruct (Hrest s' E) as [whole [fraction [Hs1 [Hw [Hne Hf]]]]].
  exists (x :: whole ++ 46%N :: fraction). split.
  - rewrite Hs1. simpl. rewrite <- app_assoc. reflexivity.
  - exists [x], whole, fraction. repeat split; try assumption.
    right. now apply one_of_sign.
Qed.

(** Every match of the sensor pattern has one of the two forms. *)
Lemma sensor_pattern_match_form (s r : text) :
  match_here sensor_pattern s = Some r ->
  exists p, s = p ++ r /\ p <> [] /\ (integer_form p \/ decimal_form p).
Proof.
  unfold sensor_pattern, match_here. intros H.
  destruct (match_atoms _ s) as [r1|] eqn:E1.
  - inversion H; subst r1.
    destruct (decimal_alternative_inv _ _ E1) as [p [Hs Hp]].
    exists p. repeat split; auto.
    destruct Hp as [sg [w [f [Hp [_ [_ [Hne _]]]]]]]. subst p.
    destruct sg; [destruct w|]; discriminate.
  - destruct (match_atoms [Plus is_decimal] s) as [r2|] eqn:E2; [|discriminate].
    inversion H; subst r2.
    destruct (integer_alternative_inv _ _ E2) as [p [Hs Hp]].
    exists p. repeat split; auto. apply Hp.
Qed.

Lemma scanned_more_gap (x : codepoint) (s : text) (found : list text) :
  scanned s found -> scanned (x :: s) found.
Proof.
  intros H. destruct H as [gap | gap t rest found H].
  - constructor.
  - apply (scanned_match (x :: gap) t rest found H).
Qed.

Section Findall.

Variable alts : list alternative.
Variable P : text -> Prop.
Hypothesis matches :
  forall s r, match_here alts s = Some r ->
              exists p, s = p ++ r /\ p <> [] /\ P p.

(** What is found has the property of the matches and lies in the text
    from left to right. *)
Lemma findall_from_scanned :
  forall s skip,
    Forall P (findall_from alts skip s) /\
    scanned (skipn skip s) (findall_from alts skip s).
Proof.
  induction s as [|x s IH]; intros skip.
  - simpl. split; [constructor|]. destruct skip; constructor.
  - destruct skip as [|k]; [|exact (IH k)].
    cbn [findall_from skipn].
    destruct (match_here alts (x :: s)) as [r|] eqn:E.
    + destruct (matches _ _ E) as [p [Hs [Hne HP]]].
      assert (Hn : (length (x :: s) - length r = length p)%nat).
      { rewrite Hs, length_app. lia. }
      rewrite Hn.
      assert (Hfirst : firstn (length p) (x :: s) = p).
      { rewrite Hs. rewrite <- (Nat.add_0_r (length p)).
        rewrite firstn_app_2. simpl. apply app_nil_r. }
      rewrite Hfirst.
      destruct (IH (length p - 1)%nat) as [IHP IHs].
      assert (Hskip : skipn (length p - 1) s = r).
      { destruct p as [|y p]; [congruence|]. simpl in Hs. inversion Hs; subst.
        simpl. rewrite Nat.sub_0_r. rewrite skipn_app, skipn_all.
        rewrite Nat.sub_diag. reflexivity. }
      rewrite Hskip in IHs. split; [now constructor|].
      rewrite Hs. apply (scanned_match [] p r _ IHs).
    + destruct (IH 0%nat) as [IHP IHs]. split; [exact IHP|].
      simpl in IHs. now apply scanned_more_gap.
Qed.

End Findall.

(** The tokens of a text: their form and their place. *)
Lemma sensor_tokens_scanned (s : text) :
  Forall (fun t => integer_form t \/ decimal_form t) (findall sensor_pattern s) /\
  scanned s (findall sensor_pattern s).
Proof.
  apply (findall_from_scanned sensor_pattern _ sensor_pattern_match_form s 0).
Qed.

(** X2: every token the pattern finds is a run of one or more decimal
    digits, or an optional sign, digits, a point and one or more digits; in
    particular a token that begins with a sign contains a point. *)
Theorem tokens_are_integers_or_decimals (s : text) :
  Forall (fun t => integer_form t \/ decimal_form t) (findall sensor_pattern s) /\
  Forall (fun t => forall sign rest, t = sign :: rest ->
                   one_of "-+" sign = true -> In 46%N rest)
         (findall sensor_pattern s).
Proof.
  assert (H : Forall (fun t => integer_form t \/ decimal_form t)
                     (findall sensor_pattern s)).
  { apply sensor_tokens_scanned. }
  split; [exact H|].
  eapply Forall_impl; [|exact H]. intros t Ht sign rest Heq Hsign. subst t.
  destruct Ht as [[_ Hdigits] | [sg [w [f [Heq [Hsg _]]]]]].
  - unfold all_decimal in Hdigits. simpl in Hdigits.
    apply andb_prop in Hdigits. destruct Hdigits as [Hd _].
    apply one_of_sign in Hsign.
    destruct Hsign as [Hs|Hs]; inversion Hs; subst sign; discriminate Hd.
  - destruct Hsg as [->|[->| ->]].
    + simpl in Heq. destruct w as [|d w]; simpl in Heq; inversion Heq; subst.
      * apply one_of_sign in Hsign. destruct Hsign as [Hs|Hs]; discriminate Hs.
      * apply in_or_app. right. now left.
    + simpl in Heq. inversion Heq; subst. apply in_or_app. right. now left.
    + simpl in Heq. inversion Heq; subst. apply in_or_app. right. now left.
Qed.

(** X3: the tokens are pieces of the searched text, one after the other
    from left to right and without overlap. *)
Theorem tokens_lie_in_the_text_in_order (s : text) :
  scanned s (findall sensor_pattern s).
Proof.
  apply sensor_tokens_scanned.
Qed.

Lemma count_decimal_app (a b : text) :
  count_decimal (a ++ b) = (count_decimal a + count_decimal b)%nat.
Proof.
  unfold count_decimal. now rewrite filter_app, length_app.
Qed.

Lemma all_decimal_has_digit (t : text) :
  t <> [] -> all_decimal t = true -> (1 <= count_decimal t)%nat.
Proof.
  destruct t as [|x t]; [congruence|]. intros _ H.
  unfold all_decimal in H. simpl in H. apply andb_prop in H.
  unfold count_decimal. simpl. destruct H as [-> _]. simpl. lia.
Qed.

Lemma token_has_digit (t : text) :
  integer_form t \/ decimal_form t -> (1 <= count_decimal t)%nat.
Proof.
  intros [[Hne H] | [sg [w [f [Heq [_ [_ [Hne Hf]]]]]]]].
  - now apply all_decimal_has_digit.
  - subst t. rewrite !count_decimal_app.
    change (46%N :: f) with ([46%N] ++ f). rewrite count_decimal_app.
    pose proof (all_decimal_has_digit f Hne Hf). lia.
Qed.

Lemma scanned_count (s : text) (found : list text) :
  scanned s found ->
  Forall (fun t => 1 <= count_decimal t)%nat found ->
  (length found <= count_decimal s)%nat.
Proof.
  induction 1 as [gap | gap t rest found Hs IH]; intros Hall.
  - simpl. lia.
  - inversion Hall; subst. rewrite !count_decimal_app. simpl.
    specialize (IH H2). lia.
Qed.

Lemma split1_cases (sep : codepoint) (s : text) :
  split1 sep s = [s] \/
  exists before after, split1 sep s = [before; after] /\
                       s = before ++ sep :: after.
Proof.
  induction s as [|x s IH]; simpl.
  - now left.
  - destruct (N.eqb_spec x sep) as [E|_].
    + subst x. right. exists [], s. auto.
    + destruct IH as [-> | [before [after [-> Hs]]]].
      * now left.
      * right. exists (x :: before), after. rewrite Hs. auto.
Qed.

Lemma tokens_count (input_data : text) :
  (length (RemoteDevice.tokens input_data) <= count_decimal input_data)%nat.
Proof.
  unfold RemoteDevice.tokens.
  assert (Hle : forall s, (length (findall sensor_pattern s) <= count_decimal s)%nat).
  { intros s. apply scanned_count.
    - apply sensor_tokens_scanned.
    - eapply Forall_impl; [|apply (proj1 (sensor_tokens_scanned s))].
      intros t. apply token_has_digit. }
  destruct (split1_cases 58%N input_data) as [-> | [before [after [-> Hs]]]].
  - apply Hle.
  - unfold last_item. simpl. specialize (Hle after).
    rewrite Hs. change (58%N :: after) with ([58%N] ++ after).
    rewrite !count_decimal_app. lia.
Qed.

(** ** Lines the parser accepts and lines it rejects *)

(** The parser stores the tokens when there are five and raises
    otherwise. *)
Lemma process_input_sensor_data_five_tokens (input_data a b c d e : text)
  (self : RemoteDevice.t) :
  RemoteDevice.tokens input_data = [a; b; c; d; e] ->
  RemoteDevice.process_input_sensor_data input_data self
  = ([Print "{}" [OText (last_item (split1 58%N input_data))]],
     with_readings a b c d e self, Returned tt).
Proof.
  unfold RemoteDevice.tokens, RemoteDevice.process_input_sensor_data.
  intros ->. reflexivity.
Qed.

(** X4: each token holds a decimal digit of its own, so a line with fewer
    than five decimal digits can never be accepted: the parser raises
    ValueError and leaves the remote device as it was. *)
Theorem line_with_fewer_than_five_digits_is_rejected
  (input_data : text) (self : RemoteDevice.t) :
  (count_decimal input_data < 5)%nat ->
  (length (RemoteDevice.tokens input_data) <= count_decimal input_data)%nat /\
  state_of (RemoteDevice.process_input_sensor_data input_data self) = self /\
  exists msg,
    outcome_of (RemoteDevice.process_input_sensor_data input_data self)
    = Raised (ValueError msg).
Proof.
  intros Hfew. pose proof (tokens_count input_data) as Hle.
  split; [exact Hle|].
  apply process_input_sensor_data_unpack_fails. lia.
Qed.

Lemma line_with_fewer_than_five_digits_is_rejected_witness :
  state_of (RemoteDevice.process_input_sensor_data (str "T:21.5 P:9")
              RemoteDevice.__init__)
  = RemoteDevice.__init__.
Proof.
  apply (line_with_fewer_than_five_digits_is_rejected (str "T:21.5 P:9")
           RemoteDevice.__init__).
  vm_compute. lia.
Defined.

(** X5: the parser returns normally exactly when the line has five
    tokens; it then stores them in the order temperature, pressure,
    humidity, gas_resistance, altitude, as text, and keeps [connected].
    With any other number of tokens, more than five included, nothing is
    stored. *)
Theorem parser_accepts_exactly_five_tokens
  (input_data : text) (self : RemoteDevice.t) :
  let r := RemoteDevice.process_input_sensor_data input_data self in
  (outcome_of r = Returned tt <-> length (RemoteDevice.tokens input_data) = 5%nat) /\
  (forall a b c d e,
     RemoteDevice.tokens input_data = [a; b; c; d; e] ->
     state_of r = with_readings a b c d e self) /\
  (length (RemoteDevice.tokens input_data) <> 5%nat -> state_of r = self) /\
  ((5 < length (RemoteDevice.tokens input_data))%nat ->
   outcome_of r = Raised (ValueError "too many values to unpack (expected 5)")).
Proof.
  intros r. subst r. repeat split.
  - intros Hret.
    destruct (Nat.eq_dec (length (RemoteDevice.tokens input_data)) 5) as [E|E];
      [exact E|].
    destruct (process_input_sensor_data_unpack_fails input_data self E)
      as [_ [msg Hmsg]].
    rewrite Hmsg in Hret. discriminate.
  - intros Hfive.
    destruct (RemoteDevice.tokens input_data)
      as [|a [|b [|c [|d [|e [|f l]]]]]] eqn:E; try discriminate.
    now rewrite (process_input_sensor_data_five_tokens _ _ _ _ _ _ _ E).
  - intros a b c d e E.
    now rewrite (process_input_sensor_data_five_tokens _ _ _ _ _ _ _ E).
  - intros Hne. now apply process_input_sensor_data_unpack_fails.
  - unfold RemoteDevice.tokens, RemoteDevice.process_input_sensor_data.
    destruct (findall sensor_pattern (last_item (split1 58%N input_data)))
      as [|a [|b [|c [|d [|e [|f l]]]]]]; simpl; intros H; try lia.
    reflexivity.
Qed.

Lemma parser_accepts_exactly_five_tokens_witness :
  outcome_of (RemoteDevice.process_input_sensor_data (str "x:1,2,3,4,5,6")
                RemoteDevice.__init__)
  = Raised (ValueError "too many values to unpack (expected 5)") /\
  state_of (RemoteDevice.process_input_sensor_data (str "x:1,2,3,4,5,6")
              RemoteDevice.__init__)
  = RemoteDevice.__init__.
Proof.
  destruct (parser_accepts_exactly_five_tokens (str "x:1,2,3,4,5,6")
              RemoteDevice.__init__) as [_ [_ [Hstate Hmany]]].
  split.
  - apply Hmany. vm_compute. lia.
  - apply Hstate. vm_compute. discriminate.
Defined.

(** ** Runs of the read loop *)

Lemma check_incoming_serial_data_cons (io : RemoteDevice.serial_io)
  (turns : list RemoteDevice.serial_io) (self : RemoteDevice.t) :
  state_of (RemoteDevice.check_incoming_serial_data (io :: turns) self)
  = state_of (RemoteDevice.check_incoming_serial_data turns
                (state_of (RemoteDevice.check_incoming_serial_data_turn io self))).
Proof.
  unfold RemoteDevice.check_incoming_serial_data. cbn [for_each]. unfold bind.
  pose proof (check_incoming_serial_data_turn_returns io self) as Hret.
  unfold outcome_of, state_of in *.
  destruct (RemoteDevice.check_incoming_serial_data_turn io self) as [[t s] o].
  simpl in Hret. subst o. cbn [fst snd].
  destruct (for_each turns RemoteDevice.check_incoming_serial_data_turn s)
    as [[t' s'] o']. reflexivity.
Qed.

Lemma check_incoming_serial_data_app
  (first second : list RemoteDevice.serial_io) (self : RemoteDevice.t) :
  state_of (RemoteDevice.check_incoming_serial_data (first ++ second) self)
  = state_of (RemoteDevice.check_incoming_serial_data second
                (state_of (RemoteDevice.check_incoming_serial_data first self))).
Proof.
  revert self. induction first as [|io first IH]; intros self.
  - reflexivity.
  - cbn [app]. rewrite !check_incoming_serial_data_cons. apply IH.
Qed.

(** A property that every turn keeps holds after every run. *)
Lemma check_incoming_serial_data_invariant (I : RemoteDevice.t -> Prop) :
  (forall io s, I s -> I (state_of (RemoteDevice.check_incoming_serial_data_turn io s))) ->
  forall turns s, I s -> I (state_of (RemoteDevice.check_incoming_serial_data turns s)).
Proof.
  intros Hturn turns. induction turns as [|io turns IH]; intros s Hs.
  - exact Hs.
  - rewrite check_incoming_serial_data_cons. apply IH. now apply Hturn.
Qed.

(** What one turn does to the remote device. *)
Lemma check_incoming_serial_data_turn_state (io : RemoteDevice.serial_io)
  (self : RemoteDevice.t) :
  (delivers_reading io = false /\
   state_of (RemoteDevice.check_incoming_serial_data_turn io self) = self) \/
  (exists line a b c d e,
     delivers_reading io = true /\
     RemoteDevice.readline_decode io = Returned line /\
     RemoteDevice.tokens (strip CR_LF line) = [a; b; c; d; e] /\
     state_of (RemoteDevice.check_incoming_serial_data_turn io self)
     = with_readings a b c d e self).
Proof.
  destruct io as [waiting read].
  unfold delivers_reading, RemoteDevice.check_incoming_serial_data_turn.
  cbn [RemoteDevice.in_waiting RemoteDevice.readline_decode].
  destruct (waiting >? 0)%Z; [|left; split; reflexivity]. cbn [andb].
  rewrite (try_except_print_state _ "{}" (fun e => [OExn e])).
  destruct read as [line|e]; [|left; split; reflexivity].
  assert (Hstate :
            state_of ((line0 <- lift (Returned line) ;;
                       RemoteDevice.process_input_sensor_data
                         (strip CR_LF line0)) self)
            = state_of (RemoteDevice.process_input_sensor_data
                          (strip CR_LF line) self)).
  { unfold bind, lift.
    destruct (RemoteDevice.process_input_sensor_data (strip CR_LF line) self)
      as [[t s] o]. reflexivity. }
  rewrite Hstate.
  destruct (Nat.eqb_spec (length (RemoteDevice.tokens (strip CR_LF line))) 5)
    as [Hfive|Hnot].
  - right.
    destruct (RemoteDevice.tokens (strip CR_LF line))
      as [|a [|b [|c [|d [|e [|f l]]]]]] eqn:E; try discriminate.
    exists line, a, b, c, d, e.
    split; [reflexivity|]. split; [reflexivity|]. split; [exact E|].
    now rewrite (process_input_sensor_data_five_tokens _ _ _ _ _ _ _ E).
  - left. split; [reflexivity|].
    now apply process_input_sensor_data_unpack_fails.
Qed.

(** X6: a run of the read loop in which no turn delivers a line with
    exactly five tokens (the port is idle, the bytes cannot be read or
    decoded, or the line has another number of tokens) leaves the remote
    device as it was. *)
Theorem run_without_a_five_token_line_changes_nothing
  (turns : list RemoteDevice.serial_io) (self : RemoteDevice.t) :
  forallb (fun io => negb (delivers_reading io)) turns = true ->
  state_of (RemoteDevice.check_incoming_serial_data turns self) = self.
Proof.
  revert self. induction turns as [|io turns IH]; intros self Hquiet.
  - reflexivity.
  - simpl in Hquiet. apply andb_prop in Hquiet. destruct Hquiet as [Hio Hrest].
    rewrite check_incoming_serial_data_cons.
    destruct (check_incoming_serial_data_turn_state io self)
      as [[_ ->] | [line [a [b [c [d [e [Hd _]]]]]]]].
    + now apply IH.
    + rewrite Hd in Hio. discriminate.
Qed.

Lemma run_without_a_five_token_line_changes_nothing_witness :
  state_of
    (RemoteDevice.check_incoming_serial_data
       [ {| RemoteDevice.in_waiting := 0;
            RemoteDevice.readline_decode := Returned (str "x:1,2,3,4,5") |};
         {| RemoteDevice.in_waiting := 4;
            RemoteDevice.readline_decode := Raised (LibraryError "UnicodeDecodeError") |};
         delivered 12 (str "x:1,2,3,4,5,6");
         delivered 3 (str "boot") ]
       RemoteDevice.__init__)
  = RemoteDevice.__init__.
Proof.
  apply run_without_a_five_token_line_changes_nothing.
  vm_compute. reflexivity.
Defined.

Lemma check_incoming_serial_data_keeps_connected
  (turns : list RemoteDevice.serial_io) (self : RemoteDevice.t) :
  RemoteDevice.connected
    (state_of (RemoteDevice.check_incoming_serial_data turns self))
  = RemoteDevice.connected self.
Proof.
  apply (check_incoming_serial_data_invariant
           (fun s => RemoteDevice.connected s = RemoteDevice.connected self));
    [|reflexivity].
  intros io s Hs.
  destruct (check_incoming_serial_data_turn_state io s)
    as [[_ ->] | [line [a [b [c [d [e [_ [_ [_ ->]]]]]]]]]]; exact Hs.
Qed.

(** X7: the last accepted line wins: when the run ends with a turn that
    delivers a line with five tokens, the readings are these five tokens,
    whatever the earlier turns delivered and whatever was stored before. *)
Theorem last_five_token_line_gives_the_readings
  (turns : list RemoteDevice.serial_io) (waiting : Z) (line a b c d e : text)
  (self : RemoteDevice.t) :
  (waiting > 0)%Z ->
  RemoteDevice.tokens (strip CR_LF line) = [a; b; c; d; e] ->
  state_of (RemoteDevice.check_incoming_serial_data
              (turns ++ [delivered waiting line]) self)
  = with_readings a b c d e self.
Proof.
  intros Hw Htok. rewrite check_incoming_serial_data_app.
  rewrite check_incoming_serial_data_cons. cbn [RemoteDevice.check_incoming_serial_data for_each ret state_of fst snd].
  destruct (check_incoming_serial_data_turn_state (delivered waiting line)
              (state_of (RemoteDevice.check_incoming_serial_data turns self)))
    as [[Hd _] | [line' [a' [b' [c' [d' [e' [_ [Hline [Htok' Hstate]]]]]]]]]].
  - unfold delivers_reading, delivered in Hd. simpl in Hd. rewrite Htok in Hd.
    destruct (waiting >? 0)%Z eqn:E; [discriminate | lia].
  - simpl in Hline. inversion Hline; subst line'.
    rewrite Htok in Htok'. inversion Htok'; subst.
    unfold state_of in *. cbn [fst snd]. 
    change (RemoteDevice.check_incoming_serial_data turns self)
      with (for_each turns RemoteDevice.check_incoming_serial_data_turn self) in *.
    rewrite Hstate. unfold with_readings. f_equal.
    apply (check_incoming_serial_data_keeps_connected turns self).
Qed.

Lemma last_five_token_line_gives_the_readings_witness :
  state_of (RemoteDevice.check_incoming_serial_data
              ([delivered 9 (str "x:9,9,9,9,9"); delivered 2 (str "noise")]
               ++ [delivered 20 (str "T:-1.5 P:1013 H:40.2 G:12 A:+.5" ++ [13; 10]%N)])
              RemoteDevice.__init__)
  = with_readings (str "-1.5") (str "1013") (str "40.2") (str "12") (str "+.5")
                  RemoteDevice.__init__.
Proof.
  apply last_five_token_line_gives_the_readings.
  - lia.
  - vm_compute. reflexivity.
Defined.

(** X8: the read loop never touches [connected], and a reading is always
    the 0 of the constructor or the text of a token (digits, or an optional
    sign, digits, a point and digits): the readings are never numbers
    parsed from the line. *)
Theorem readings_are_zero_or_token_text
  (turns : list RemoteDevice.serial_io) :
  let r := RemoteDevice.check_incoming_serial_data turns RemoteDevice.__init__ in
  Forall reading_form (readings (state_of r)) /\
  RemoteDevice.connected (state_of r) = false.
Proof.
  intros r. subst r. split.
  - apply (check_incoming_serial_data_invariant
             (fun s => Forall reading_form (readings s))).
    + intros io s Hs.
      destruct (check_incoming_serial_data_turn_state io s)
        as [[_ ->] | [line [a [b [c [d [e [_ [_ [Htok ->]]]]]]]]]]; [exact Hs|].
      pose proof (proj1 (sensor_tokens_scanned
                           (last_item (split1 58%N (strip CR_LF line))))) as Hform.
      unfold RemoteDevice.tokens in Htok. rewrite Htok in Hform.
      unfold readings, with_readings. simpl.
      repeat match goal with
             | H : Forall _ (_ :: _) |- _ => inversion H; clear H; subst
             end.
      repeat (apply Forall_cons;
              [right; eexists; split; [reflexivity | assumption]|]).
      apply Forall_nil.
    + repeat constructor; now left.
  - apply (check_incoming_serial_data_keeps_connected turns RemoteDevice.__init__).
Qed.

(** ** Documents the handler accepts *)

(** X9: a payload that decodes to something that is not an object (an
    array, a text, a number, true, false, null) makes the handler raise
    TypeError at data['led_on']; the exception leaves the handler and the
    device is unchanged. *)
Theorem document_that_is_no_object_raises_type_error
  (json_loads : bytes -> outcome value) (message : MQTTMessage)
  (self : Device.t) (data : value) :
  payload message <> [] ->
  json_loads (payload message) = Returned data ->
  (forall items, data <> VDict items) ->
  exists msg,
    Device.on_message json_loads message self
    = ([received message; JsonLoads (payload message)], self,
       Raised (TypeError msg)).
Proof.
  intros Hne Hload Hnot. unfold Device.on_message, received.
  destruct (payload message) as [|b p] eqn:Hp; [congruence|].
  unfold bind, try_except, emit, lift, print, ret. simpl.
  rewrite Hload. simpl.
  destruct data; try (eexists; reflexivity).
  exfalso. now apply (Hnot items).
Qed.

Lemma document_that_is_no_object_raises_type_error_witness :
  exists msg,
    Device.on_message sample_json_loads (config_message (json_bytes "[true]"))
                      Device.__init__
    = ([received (config_message (json_bytes "[true]"));
        JsonLoads (json_bytes "[true]")],
       Device.__init__, Raised (TypeError msg)).
Proof.
  apply (document_that_is_no_object_raises_type_error sample_json_loads
           (config_message (json_bytes "[true]")) Device.__init__
           (VList [VBool true])).
  - discriminate.
  - reflexivity.
  - discriminate.
Defined.

(** X10: the handler returns normally exactly when the payload is empty or
    decodes to an object that has the key led_on; in every other case an
    exception leaves it: UnboundLocalError (payload not decodable),
    KeyError (object without led_on) or TypeError (no object). *)
Theorem on_message_returns_iff_empty_or_led_on_present
  (json_loads : bytes -> outcome value) (message : MQTTMessage)
  (self : Device.t) :
  let r := Device.on_message json_loads message self in
  (outcome_of r = Returned tt <->
   payload message = [] \/
   exists items v,
     json_loads (payload message) = Returned (VDict items) /\
     lookup (str "led_on") items = Some v) /\
  (forall e, outcome_of r = Raised e ->
     e = UnboundLocalError "data" \/ e = KeyError (str "led_on") \/
     exists msg, e = TypeError msg).
Proof.
  intros r. subst r. unfold Device.on_message.
  destruct (payload message) as [|b p] eqn:Hp.
  - split; [split; [now left | reflexivity]|]. intros e H. discriminate H.
  - unfold bind, try_except, emit, lift, print, ret, outcome_of. simpl.
    destruct (json_loads (b :: p)) as [data|e0] eqn:Hload; simpl.
    + destruct data; simpl;
        try (split; [split; [discriminate | intros [H|[items' [v [H _]]]]; discriminate]
                    | intros e H; inversion H; right; right; eexists; reflexivity]).
      destruct (lookup (str "led_on") items) as [new|] eqn:Hkey; simpl.
      * split.
        -- split; [intros _; right; exists items, new; auto|]. intros _.
           destruct (py_ne new (Device.led_on self)); simpl; [|reflexivity].
           destruct (truthy new); reflexivity.
        -- intros e. destruct (py_ne new (Device.led_on self)); simpl;
             [destruct (truthy new)|]; discriminate.
      * split.
        -- split; [discriminate|].
           intros [H|[items' [v [H Hv]]]]; [discriminate|].
           inversion H; subst items'. congruence.
        -- intros e H. inversion H. auto.
    + split.
      * split; [discriminate|].
        intros [H|[items' [v [H _]]]]; discriminate.
      * intros e H. inversion H. auto.
Qed.

(** X11: the handler changes no attribute but led_on, so a configuration
    message never changes what the device reports: the telemetry object
    built from the device is the same before and after the handler,
    whatever the message and whether the handler returns or raises. *)
Theorem on_message_never_changes_the_telemetry
  (json_loads : bytes -> outcome value) (message : MQTTMessage)
  (self : Device.t) (remoteDevice : RemoteDevice.t) (time : text) :
  let after := state_of (Device.on_message json_loads message self) in
  Device.connected after = Device.connected self /\
  Device.proximity after = Device.proximity self /\
  Device.ambient_lux after = Device.ambient_lux self /\
  (Device.accel_x after, Device.accel_y after, Device.accel_z after)
  = (Device.accel_x self, Device.accel_y self, Device.accel_z self) /\
  telemetry after remoteDevice time = telemetry self remoteDevice time.
Proof.
  intros after. subst after.
  rewrite (on_message_writes_led_on_only json_loads message self).
  repeat split.
Qed.

(** X12: fields other than led_on are ignored: two messages whose
    documents give the same result for data['led_on'] leave the device in
    the same state, with the same led calls and the same outcome. *)
Theorem other_fields_of_the_document_are_ignored
  (json_loads : bytes -> outcome value) (m1 m2 : MQTTMessage)
  (self : Device.t) (data1 data2 : value) :
  payload m1 <> [] -> payload m2 <> [] ->
  json_loads (payload m1) = Returned data1 ->
  json_loads (payload m2) = Returned data2 ->
  getitem data1 (str "led_on") = getitem data2 (str "led_on") ->
  let r1 := Device.on_message json_loads m1 self in
  let r2 := Device.on_message json_loads m2 self in
  state_of r1 = state_of r2 /\ outcome_of r1 = outcome_of r2 /\
  filter is_leds (trace_of r1) = filter is_leds (trace_of r2).
Proof.
  intros Hne1 Hne2 Hload1 Hload2 Hsame r1 r2. subst r1 r2.
  unfold Device.on_message.
  destruct (payload m1) as [|b1 p1] eqn:Hp1; [congruence|].
  destruct (payload m2) as [|b2 p2] eqn:Hp2; [congruence|].
  unfold bind, try_except, emit, lift, print, ret, state_of, outcome_of, trace_of.
  simpl. rewrite Hload1, Hload2. simpl. rewrite Hsame.
  destruct (getitem data2 (str "led_on")) as [new|e]; simpl; [|auto].
  destruct (py_ne new (Device.led_on self)); simpl; [|auto].
  destruct (truthy new); auto.
Qed.

Lemma other_fields_of_the_document_are_ignored_witness :
  state_of (Device.on_message sample_json_loads
              (config_message (json_bytes "{'fan': 3, 'led_on': true}"))
              Device.__init__)
  = state_of (Device.on_message sample_json_loads
                (config_message (json_bytes "{'led_on': true}"))
                Device.__init__).
Proof.
  apply (other_fields_of_the_document_are_ignored sample_json_loads
           (config_message (json_bytes "{'fan': 3, 'led_on': true}"))
           (config_message (json_bytes "{'led_on': true}"))
           Device.__init__
           (VDict [(str "fan", VInt 3); (str "led_on", VBool true)])
           (VDict [(str "led_on", VBool true)])).
  - discriminate.
  - discriminate.
  - reflexivity.
  - reflexivity.
  - reflexivity.
Defined.

(** X13: a led_on value that differs from the current one is stored as
    decoded, whatever its type, and the led follows its truth value: one
    call of leds.on for a value that counts as true (a text that is not
    empty, a number other than 0, ...), one call of leds.off otherwise. *)
Theorem led_follows_the_truth_value_of_any_document_value
  (json_loads : bytes -> outcome value) (message : MQTTMessage)
  (self : Device.t) (data new : value) :
  payload message <> [] ->
  json_loads (payload message) = Returned data ->
  getitem data (str "led_on") = Returned new ->
  py_ne new (Device.led_on self) = true ->
  let r := Device.on_message json_loads message self in
  Device.led_on (state_of r) = new /\
  filter is_leds (trace_of r) = [if truthy new then LedsOn else LedsOff] /\
  outcome_of r = Returned tt.
Proof.
  intros Hne Hload Hget Hdiff r. subst r.
  rewrite (on_message_decoded json_loads message self _ _ Hne Hload Hget), Hdiff.
  destruct (truthy new); repeat split.
Qed.

(** The text "off" as led_on switches the led on. *)
Lemma led_follows_the_truth_value_of_any_document_value_witness :
  let r := Device.on_message sample_json_loads
             (config_message (json_bytes "{'led_on': 'off'}")) Device.__init__ in
  Device.led_on (state_of r) = VStr (str "off") /\
  filter is_leds (trace_of r) = [LedsOn].
Proof.
  intros r.
  destruct (led_follows_the_truth_value_of_any_document_value sample_json_loads
              (config_message (json_bytes "{'led_on': 'off'}")) Device.__init__
              (VDict [(str "led_on", VStr (str "off"))]) (VStr (str "off")))
    as [Hstate [Hleds _]].
  - discriminate.
  - reflexivity.
  - reflexivity.
  - reflexivity.
  - split; [exact Hstate | exact Hleds].
Defined.

(** X14: handling a message a second time is a no-op: when the led_on
    value of the document equals itself under [==] (every value but NaN),
    the second delivery of the same message changes nothing and makes no
    led call, from every state. *)
Theorem second_delivery_of_a_message_is_a_no_op
  (json_loads : bytes -> outcome value) (message : MQTTMessage)
  (self : Device.t) (data new : value) :
  payload message <> [] ->
  json_loads (payload message) = Returned data ->
  getitem data (str "led_on") = Returned new ->
  py_ne new new = false ->
  let r := Device.on_message json_loads message self in
  Device.on_message json_loads message (state_of r)
  = ([received message; JsonLoads (payload message)], state_of r, Returned tt).
Proof.
  intros Hne Hload Hget Hrefl r.
  rewrite (on_message_decoded json_loads message (state_of r) _ _ Hne Hload Hget).
  subst r.
  rewrite (on_message_decoded json_loads message self _ _ Hne Hload Hget).
  destruct (py_ne new (Device.led_on self)) eqn:Hdiff.
  - destruct (truthy new); unfold state_of; simpl; now rewrite Hrefl.
  - unfold state_of. simpl. now rewrite Hdiff.
Qed.

Lemma second_delivery_of_a_message_is_a_no_op_witness :
  let message := config_message (json_bytes "{'led_on': 'off'}") in
  let r := Device.on_message sample_json_loads message Device.__init__ in
  state_of (Device.on_message sample_json_loads message (state_of r))
  = state_of r.
Proof.
  intros message r.
  pose proof (second_delivery_of_a_message_is_a_no_op sample_json_loads message
                Device.__init__ (VDict [(str "led_on", VStr (str "off"))])
                (VStr (str "off"))) as H.
  cbv zeta in H. fold r in H. rewrite H.
  - reflexivity.
  - discriminate.
  - reflexivity.
  - reflexivity.
  - reflexivity.
Defined.

Lemma nan_differs_from_every_value (v : value) : py_ne (VFloat NaN) v = true.
Proof.
  unfold py_ne, py_eq. destruct v as [| | |f| | |]; try reflexivity.
  destruct f; reflexivity.
Qed.

(** X15: a document whose led_on is NaN (json.loads accepts it) is never
    a no-op: NaN differs from every value, itself included, so every
    delivery stores it and calls leds.on, also when it was stored
    before. *)
Theorem nan_switches_the_led_on_at_every_delivery
  (json_loads : bytes -> outcome value) (message : MQTTMessage)
  (self : Device.t) (data : value) :
  payload message <> [] ->
  json_loads (payload message) = Returned data ->
  getitem data (str "led_on") = Returned (VFloat NaN) ->
  Device.on_message json_loads message self
  = ([received message; JsonLoads (payload message);
      Print "Led turned on." []; LedsOn],
     Device.set_led_on (VFloat NaN) self, Returned tt).
Proof.
  intros Hne Hload Hget.
  rewrite (on_message_decoded json_loads message self _ _ Hne Hload Hget).
  now rewrite nan_differs_from_every_value.
Qed.

Lemma nan_switches_the_led_on_at_every_delivery_witness :
  let message := config_message (json_bytes "{'led_on': NaN}") in
  let r := Device.on_message sample_json_loads message Device.__init__ in
  filter is_leds (trace_of r) = [LedsOn] /\
  filter is_leds (trace_of (Device.on_message sample_json_loads message (state_of r)))
  = [LedsOn].
Proof.
  intros message r. subst r. split.
  - rewrite (nan_switches_the_led_on_at_every_delivery sample_json_loads message
               Device.__init__ (VDict [(str "led_on", VFloat NaN)]));
      [reflexivity | discriminate | reflexivity | reflexivity].
  - rewrite (nan_switches_the_led_on_at_every_delivery sample_json_loads message _
               (VDict [(str "led_on", VFloat NaN)]));
      [reflexivity | discriminate | reflexivity | reflexivity].
Defined.

(** ** Sequences of led messages *)

Lemma py_ne_bools (b c : bool) :
  py_ne (VBool b) (VBool c) = negb (Bool.eqb b c).
Proof.
  destruct b, c; reflexivity.
Qed.

Lemma last_cons_default {A} (x d : A) (l : list A) :
  last (x :: l) d = last l x.
Proof.
  revert x d. induction l as [|y l IH]; intros x d; [reflexivity|].
  change (last (x :: y :: l) d) with (last (y :: l) d).
  rewrite (IH y d), (IH y x). reflexivity.
Qed.

Lemma set_led_on_twice (a b : value) (self : Device.t) :
  Device.set_led_on a (Device.set_led_on b self) = Device.set_led_on a self.
Proof.
  reflexivity.
Qed.

(** X16: for a sequence of messages whose led_on values are booleans, the
    handler makes one led call for each change of the value and none for
    a repetition, and the device ends with the last value. *)
Theorem led_calls_are_the_changes_of_the_sequence
  (json_loads : bytes -> outcome value) :
  forall (messages : list MQTTMessage) (wanted : list bool) (current : bool)
         (self : Device.t),
    Forall2 (fun m b =>
               payload m <> [] /\
               exists data, json_loads (payload m) = Returned data /\
                            getitem data (str "led_on") = Returned (VBool b))
            messages wanted ->
    Device.led_on self = VBool current ->
    let r := on_messages json_loads messages self in
    outcome_of r = Returned tt /\
    filter is_leds (trace_of r) = switches current wanted /\
    state_of r = Device.set_led_on (VBool (last wanted current)) self.
Proof.
  induction messages as [|m messages IH]; intros wanted current self Hall Hcur r.
  - inversion Hall; subst. subst r. unfold on_messages. simpl.
    repeat split. destruct self. simpl in Hcur. subst. reflexivity.
  - inversion Hall as [|m' b ms bs [Hne [data [Hload Hget]]] Hrest]; subst.
    subst r. unfold on_messages. cbn [for_each]. unfold bind.
    rewrite (on_message_decoded json_loads m self _ _ Hne Hload Hget).
    rewrite Hcur, py_ne_bools, last_cons_default. cbn [switches].
    destruct (Bool.eqb b current) eqn:Heq; cbn [negb].
    + apply Bool.eqb_prop in Heq. subst b.
      specialize (IH bs current self Hrest Hcur).
      destruct IH as [IHo [IHt IHs]]. unfold on_messages in *.
      unfold outcome_of, trace_of, state_of in *.
      destruct (for_each messages (Device.on_message json_loads) self)
        as [[t s] o]. cbn [fst snd] in *. repeat split; assumption.
    + assert (Hset : Device.led_on (Device.set_led_on (VBool b) self) = VBool b)
        by reflexivity.
      specialize (IH bs b (Device.set_led_on (VBool b) self) Hrest Hset).
      destruct IH as [IHo [IHt IHs]]. unfold on_messages in *.
      rewrite set_led_on_twice in IHs.
      unfold outcome_of, trace_of, state_of in *.
      destruct b; cbn [truthy];
        destruct (for_each messages (Device.on_message json_loads) _)
          as [[t s] o]; cbn [fst snd] in *;
        (repeat split; try assumption; simpl; now rewrite IHt).
Qed.

(** on, on, off, off, on: three led calls. *)
Lemma led_calls_are_the_changes_of_the_sequence_witness :
  let on := config_message (json_bytes "{'led_on': true}") in
  let off := config_message (json_bytes "{'led_on': false}") in
  let r := on_messages sample_json_loads [on; on; off; off; on] Device.__init__ in
  filter is_leds (trace_of r) = [LedsOn; LedsOff; LedsOn] /\
  Device.led_on (state_of r) = VBool true.
Proof.
  intros on off r.
  destruct (led_calls_are_the_changes_of_the_sequence sample_json_loads
              [on; on; off; off; on] [true; true; false; false; true] false
              Device.__init__) as [_ [Ht Hs]].
  - repeat (constructor;
            [split; [discriminate | eexists; split; reflexivity]|]).
    constructor.
  - reflexivity.
  - fold r in Ht, Hs. rewrite Ht, Hs. split; reflexivity.
Defined.

(** ** The wait for the connection, for every course of the flag *)

Lemma wait_loop_course (connected_at : nat -> bool) (self : Device.t) :
  forall remaining reads,
  exists sleeps,
    (sleeps <= remaining)%nat /\
    (forall i, (i < sleeps)%nat -> connected_at (reads + i)%nat = false) /\
    (connected_at (reads + sleeps)%nat = true \/ sleeps = remaining) /\
    Device.wait_loop connected_at remaining reads self
    = (repeat (Sleep 1) sleeps, self, Returned (S (reads + sleeps))).
Proof.
  induction remaining as [|remaining IH]; intros reads; simpl.
  - exists 0%nat. rewrite Nat.add_0_r.
    destruct (connected_at reads) eqn:E; simpl;
      (repeat split; [lia | intros i Hi; lia | auto]).
  - destruct (connected_at reads) eqn:E; simpl.
    + exists 0%nat. rewrite Nat.add_0_r.
      repeat split; [lia | intros i Hi; lia | auto].
    + destruct (IH (S reads)) as [n [Hle [Hoff [Hend Hrun]]]].
      exists (S n). unfold bind, emit. rewrite Hrun.
      replace (reads + S n)%nat with (S reads + n)%nat by lia.
      repeat split.
      * lia.
      * intros i Hi. destruct i as [|i].
        -- now rewrite Nat.add_0_r.
        -- replace (reads + S i)%nat with (S reads + i)%nat by lia.
           apply Hoff. lia.
      * destruct Hend as [Hon|Hn]; [now left | right; lia].
Qed.

Lemma wait_for_connection_course
  (connected_at : nat -> bool) (timeout : Z) (self : Device.t) :
  exists sleeps,
    (sleeps <= Z.to_nat timeout)%nat /\
    (forall i, (i < sleeps)%nat -> connected_at i = false) /\
    (connected_at sleeps = true \/ sleeps = Z.to_nat timeout) /\
    Device.wait_for_connection connected_at timeout self
    = (repeat (Sleep 1) sleeps, self,
       if connected_at (S sleeps) then Returned tt
       else Raised (RuntimeError "Could not connect to MQTT bridge.")).
Proof.
  destruct (wait_loop_course connected_at self (Z.to_nat timeout) 0)
    as [n [Hle [Hoff [Hend Hrun]]]].
  simpl in Hoff, Hend, Hrun. exists n. repeat split; try assumption.
  unfold Device.wait_for_connection, bind. rewrite Hrun.
  destruct (connected_at (S n)); simpl; now rewrite app_nil_r.
Qed.

(** X17: whatever the flag does, wait_for_connection leaves the device as
    it is and only sleeps: one second for each read that sees the flag
    unset, never more than [timeout] seconds (none for a timeout of 0 or
    less); the loop ends at the first read that sees the flag set or when
    the time is used up, and one further read of the flag decides alone
    between returning and RuntimeError. *)
Theorem wait_for_connection_sleeps_at_most_timeout
  (connected_at : nat -> bool) (timeout : Z) (self : Device.t) :
  exists sleeps,
    (sleeps <= Z.to_nat timeout)%nat /\
    (forall i, (i < sleeps)%nat -> connected_at i = false) /\
    (connected_at sleeps = true \/ sleeps = Z.to_nat timeout) /\
    Device.wait_for_connection connected_at timeout self
    = (repeat (Sleep 1) sleeps, self,
       if connected_at (S sleeps) then Returned tt
       else Raised (RuntimeError "Could not connect to MQTT bridge.")) /\
    (slept (repeat (Sleep 1) sleeps) <= Z.max 0 timeout)%Z.
Proof.
  destruct (wait_for_connection_course connected_at timeout self)
    as [n [Hle [Hoff [Hend Hrun]]]].
  exists n. repeat split; try assumption.
  rewrite slept_repeat. lia.
Qed.

(** X18: on_connect sets the flag whatever the result code [rc] is (a
    refused connection included), on_disconnect clears it, and neither
    touches another attribute; when nothing else writes the flag,
    wait_for_connection after on_connect returns at once without
    sleeping, and after on_disconnect it sleeps the whole timeout and
    raises. *)
Theorem connection_flag_follows_the_callbacks
  (rc : Z) (timeout : Z) (self : Device.t) :
  (0 <= timeout)%Z ->
  let up := state_of (Device.on_connect rc self) in
  let down := state_of (Device.on_disconnect rc self) in
  up = Device.set_connected true self /\
  down = Device.set_connected false self /\
  Device.wait_for_connection (fun _ => Device.connected up) timeout up
  = ([], up, Returned tt) /\
  Device.wait_for_connection (fun _ => Device.connected down) timeout down
  = (repeat (Sleep 1) (Z.to_nat timeout), down,
     Raised (RuntimeError "Could not connect to MQTT bridge.")).
Proof.
  intros Hpos up down. subst up down.
  split; [reflexivity|]. split; [reflexivity|]. split.
  - unfold Device.wait_for_connection, bind.
    destruct (Z.to_nat timeout); reflexivity.
  - unfold Device.wait_for_connection, bind.
    rewrite wait_loop_unconnected by reflexivity.
    simpl. now rewrite app_nil_r.
Qed.

(** A connection refused with code 5 still counts as connected. *)
Lemma connection_flag_follows_the_callbacks_witness :
  Device.wait_for_connection
    (fun _ => Device.connected (state_of (Device.on_connect 5 Device.__init__)))
    5 (state_of (Device.on_connect 5 Device.__init__))
  = ([], Device.set_connected true Device.__init__, Returned tt).
Proof.
  apply (connection_flag_follows_the_callbacks 5 5 Device.__init__). lia.
Defined.

(** ** Failures of the token builder *)

(** X19: create_jwt reads the clock twice in every case; when the key
    file cannot be read its exception leaves create_jwt before anything is
    printed and before jwt.encode is called; when it can be read,
    create_jwt returns or raises as jwt.encode does on the claims, the
    content of the file and the algorithm. *)
Theorem create_jwt_fails_with_the_file_or_the_encoder
  (utcnow : nat -> datetime) (read_file : text -> outcome text)
  (jwt_encode : jwt_claims -> text -> text -> outcome text)
  (project_id private_key_file algorithm : text) (reads : nat) :
  let r := create_jwt utcnow read_file jwt_encode project_id private_key_file
                      algorithm reads in
  let claims := {| iat := utcnow reads;
                   exp := (utcnow (S reads) + timedelta_minutes 60)%Z;
                   aud := project_id |} in
  state_of r = S (S reads) /\
  (forall e, read_file private_key_file = Raised e ->
             r = ([], S (S reads), Raised e)) /\
  (forall private_key,
     read_file private_key_file = Returned private_key ->
     r = ([Print "Creating JWT using {} from private key file {}"
                 [OText algorithm; OText private_key_file];
           JwtEncode claims private_key algorithm],
          S (S reads), jwt_encode claims private_key algorithm)).
Proof.
  intros r claims. subst r.
  unfold create_jwt, bind, now, lift, print, emit, state_of. simpl.
  fold claims.
  destruct (read_file private_key_file) as [key|e]; simpl.
  - split; [|split].
    + destruct (jwt_encode claims key algorithm); reflexivity.
    + discriminate.
    + intros k Hk. inversion Hk; subst k.
      destruct (jwt_encode claims key algorithm); reflexivity.
  - split; [reflexivity|]. split; [|discriminate].
    intros e' He. now inversion He.
Qed.

(** X20: when the clock does not go back between the two readings, the
    claims handed to jwt.encode are valid for 60 minutes or more: the
    expiry is never less than 60 minutes after issued-at; their audience
    is the project id. *)
Theorem token_lives_sixty_minutes_or_more
  (utcnow : nat -> datetime) (read_file : text -> outcome text)
  (jwt_encode : jwt_claims -> text -> text -> outcome text)
  (project_id private_key_file algorithm : text) (reads : nat) :
  (utcnow reads <= utcnow (S reads))%Z ->
  Forall (fun claims =>
            (iat claims + timedelta_minutes 60 <= exp claims)%Z /\
            aud claims = project_id)
         (encoded_claims
            (trace_of (create_jwt utcnow read_file jwt_encode project_id
                                  private_key_file algorithm reads))).
Proof.
  intros Hclock.
  unfold create_jwt, bind, now, lift, print, emit, trace_of. simpl.
  destruct (read_file private_key_file) as [key|e]; simpl; [|constructor].
  constructor; [cbn [iat exp aud]; split; [lia | reflexivity] | constructor].
Qed.

Lemma token_lives_sixty_minutes_or_more_witness :
  Forall (fun claims =>
            (iat claims + timedelta_minutes 60 <= exp claims)%Z /\
            aud claims = str "my-project-id")
         (encoded_claims
            (trace_of (create_jwt ticking_clock (fun _ => Returned (str "key"))
                         (fun _ _ _ => Returned (str "token"))
                         (str "my-project-id") (str "rsa_private.pem")
                         (str "RS256") 0))).
Proof.
  apply token_lives_sixty_minutes_or_more. vm_compute. discriminate.
Defined.

(** ** main *)

Lemma create_jwt_returns
  (utcnow : nat -> datetime) (read_file : text -> outcome text)
  (jwt_encode : jwt_claims -> text -> text -> outcome text)
  (project_id private_key_file algorithm key token : text) (reads : nat) :
  read_file private_key_file = Returned key ->
  jwt_encode {| iat := utcnow reads;
                exp := (utcnow (S reads) + timedelta_minutes 60)%Z;
                aud := project_id |} key algorithm = Returned token ->
  create_jwt utcnow read_file jwt_encode project_id private_key_file algorithm
             reads
  = ([Print "Creating JWT using {} from private key file {}"
            [OText algorithm; OText private_key_file];
      JwtEncode {| iat := utcnow reads;
                   exp := (utcnow (S reads) + timedelta_minutes 60)%Z;
                   aud := project_id |} key algorithm],
     S (S reads), Returned token).
Proof.
  intros Hfile Henc.
  unfold create_jwt, bind, now, lift, print, emit. simpl.
  rewrite Hfile. simpl. rewrite Henc. reflexivity.
Qed.

Lemma main_loop_returns (num_messages : Z) (topic : text)
  (env : nat -> sample) (self : Device.t) :
  trace_of (main_loop num_messages topic env self)
  = flat_map (fun i => iteration_trace topic (sent self env i))
             (range num_messages) /\
  outcome_of (main_loop num_messages topic env self) = Returned tt.
Proof.
  apply (main_loop_trace topic env self (Z.to_nat num_messages) 0 self
           (fun a => eq_refl)).
Qed.

Lemma filter_env (keep : step -> bool) (t : trace) :
  (forall e, In e t -> keep (Env e) = false) ->
  filter keep (map Env t) = [].
Proof.
  induction t as [|e t IH]; intros H; [reflexivity|].
  simpl. rewrite (H e (or_introl eq_refl)). apply IH.
  intros e' He'. apply H. now right.
Qed.

Lemma in_repeat_sleep (e : event) (n : nat) :
  In e (repeat (Sleep 1) n) -> e = Sleep 1.
Proof.
  intros H. exact (repeat_spec _ _ _ H).
Qed.


Lemma published_env (t : trace) : events_of (map Env t) = t.
Proof.
  induction t as [|e t IH]; [reflexivity|]. simpl. now rewrite IH.
Qed.

Lemma events_of_app (s1 s2 : list step) :
  events_of (s1 ++ s2) = events_of s1 ++ events_of s2.
Proof.
  induction s1 as [|s s1 IH]; [reflexivity|].
  destruct s; simpl; now rewrite IH.
Qed.


Lemma published_app (t1 t2 : trace) :
  published (t1 ++ t2) = published t1 ++ published t2.
Proof.
  induction t1 as [|e t1 IH]; [reflexivity|].
  destruct e as [| | | | | | ? [?] ?]; simpl; now rewrite IH.
Qed.

(** Runs main to its end in each of the ways it can go. *)
Ltac run_main :=
  unfold Main.main, Main.bind_run, Main.does, Main.with_clock,
    Main.with_device, Main.skip, Main.steps_of, Main.result_of;
  cbn -[Device.wait_for_connection main_loop create_jwt app map filter];
  destruct (create_jwt _ _ _ _ _ _ _) as [[tj nj] [token'|ej]] eqn:Hjwt;
  try (destruct (Main.tls_set _) as [[]|et] eqn:Htls);
  try (destruct (Main.no_remote_device _) eqn:Hremote);
  cbn -[Device.wait_for_connection main_loop create_jwt app map filter];
  try (destruct (Main.open_serial _) as [[]|es] eqn:Hserial);
  try (destruct (Main.connect _) as [[]|ec] eqn:Hconnect);
  cbn -[Device.wait_for_connection main_loop create_jwt app map filter];
  try (destruct (Device.wait_for_connection _ _ _) as [[tw dw] [[]|ew]] eqn:Hwait);
  cbn -[Device.wait_for_connection main_loop create_jwt app map filter];
  try (destruct (main_loop _ _ _ _) as [[tl dl] [[]|el]] eqn:Hloop);
  cbn -[Device.wait_for_connection main_loop create_jwt app map filter].

(** X21: main ends the session with the broker only when it returns: on
    every run that returns, disconnect and loop_stop are called once each,
    in this order; on every run that raises (key file, token, TLS, serial
    port, connect, or no connection within the timeout) neither is called,
    although the network loop may have been started.  (The calls on the
    client other than tls_set and connect are taken to return.) *)
Theorem main_cleans_up_only_on_success (w : Main.world) (a : Main.args)
  (p : Main.process) :
  let r := Main.main w a p in
  (Main.result_of r = Returned tt ->
   filter is_cleanup (Main.steps_of r) = [Mqtt Disconnect; Mqtt LoopStop]) /\
  (forall e, Main.result_of r = Raised e ->
   filter is_cleanup (Main.steps_of r) = []) /\
  (Main.result_of r = Returned tt <->
   (exists token,
      outcome_of (create_jwt (Main.utcnow w) (Main.read_file w) (Main.jwt_encode w)
                    (Main.project_id a) (Main.private_key_file a)
                    (Main.algorithm a) (Main.clock_reads p))
      = Returned token) /\
   Main.tls_set w = Returned tt /\
   (Main.no_remote_device a = true \/ Main.open_serial w = Returned tt) /\
   Main.connect w = Returned tt /\
   outcome_of (Device.wait_for_connection (Main.connected_at w) 5 Device.__init__)
   = Returned tt).
Proof.
  intros r. subst r.
  pose proof (main_loop_returns (Main.num_messages a) (Main.mqtt_telemetry_topic a)
                (Main.loop_sample w a)) as Hreturns.
  assert (Hcleanup : forall t, filter is_cleanup (map Env t) = []).
  { intros t. now apply filter_env. }
  run_main;
    try (specialize (Hreturns dw); rewrite Hloop in Hreturns;
         destruct Hreturns as [_ Hreturns]; discriminate Hreturns);
    unfold outcome_of; cbn [snd];
    (split; [|split]);
    try (intros; discriminate);
    try (intros; rewrite ?filter_app, ?Hcleanup; reflexivity);
    try (split; [intros _; repeat split; eauto | reflexivity]);
    try (split; [discriminate|];
         intros [[tok Htok] [Ht [Hs [Hc Hw]]]];
         try discriminate; try (destruct Hs; discriminate)).
Qed.


Lemma wait_for_connection_unconnected (connected_at : nat -> bool)
  (timeout : Z) (self : Device.t) :
  (forall n, connected_at n = false) ->
  Device.wait_for_connection connected_at timeout self
  = (repeat (Sleep 1) (Z.to_nat timeout), self,
     Raised (RuntimeError "Could not connect to MQTT bridge.")).
Proof.
  intros Hoff. unfold Device.wait_for_connection, bind.
  rewrite wait_loop_unconnected by (intros; apply Hoff).
  rewrite Hoff. simpl. now rewrite app_nil_r.
Qed.




(** X23: when the broker never gives the connection, main sleeps the 5
    seconds of the wait and raises RuntimeError: it has called connect and
    loop_start, but it subscribes to nothing, publishes nothing, and
    neither disconnects nor stops the network loop. *)
Theorem main_gives_up_when_not_connected (w : Main.world) (a : Main.args)
  (key token : text) :
  Main.read_file w (Main.private_key_file a) = Returned key ->
  Main.jwt_encode w
    {| iat := Main.utcnow w 0;
       exp := (Main.utcnow w 1 + timedelta_minutes 60)%Z;
       aud := Main.project_id a |} key (Main.algorithm a) = Returned token ->
  Main.tls_set w = Returned tt ->
  (Main.no_remote_device a = false -> Main.open_serial w = Returned tt) ->
  Main.connect w = Returned tt ->
  (forall n, Main.connected_at w n = false) ->
  let r := Main.main w a Main.start in
  Main.result_of r = Raised (RuntimeError "Could not connect to MQTT bridge.") /\
  filter is_client_step (Main.steps_of r)
  = [Mqtt (NewClient (Main.client_id a));
     Mqtt (UsernamePwSet (str "unused") token);
     Mqtt (TlsSet (Main.ca_certs a));
     Mqtt (Connect (Main.mqtt_bridge_hostname a) (Main.mqtt_bridge_port a));
     Mqtt LoopStart] /\
  slept (events_of (Main.steps_of r)) = 5%Z.
Proof.
  intros Hfile Henc Htls Hserial Hconnect Hoff r. subst r.
  pose proof (create_jwt_returns (Main.utcnow w) (Main.read_file w)
                (Main.jwt_encode w) (Main.project_id a) (Main.private_key_file a)
                (Main.algorithm a) key token 0 Hfile Henc) as Hjwt.
  pose proof (wait_for_connection_unconnected (Main.connected_at w) 5
                Device.__init__ Hoff) as Hwait.
  unfold Main.main, Main.bind_run, Main.does, Main.with_clock, Main.with_device,
    Main.skip, Main.steps_of, Main.result_of.
  cbn -[Device.wait_for_connection main_loop create_jwt app map filter].
  rewrite Hjwt, Htls.
  destruct (Main.no_remote_device a) eqn:Hremote;
    cbn -[Device.wait_for_connection main_loop create_jwt app map filter];
    rewrite ?(Hserial eq_refl), Hconnect;
    cbn -[Device.wait_for_connection main_loop create_jwt app map filter];
    rewrite Hwait; repeat split.
Qed.

Lemma main_gives_up_when_not_connected_witness :
  Main.result_of (Main.main unanswered_world sample_args Main.start)
  = Raised (RuntimeError "Could not connect to MQTT bridge.") /\
  filter is_cleanup (Main.steps_of (Main.main unanswered_world sample_args Main.start))
  = [].
Proof.
  destruct (main_gives_up_when_not_connected unanswered_world sample_args
              (str "key") (str "token")) as [Hr _];
    try reflexivity.
  split; [exact Hr | reflexivity].
Defined.

Lemma create_jwt_is_local
  (utcnow : nat -> datetime) (read_file : text -> outcome text)
  (jwt_encode : jwt_claims -> text -> text -> outcome text)
  (project_id private_key_file algorithm : text) (reads : nat) (t : trace)
  (n : nat) (o : outcome text) :
  create_jwt utcnow read_file jwt_encode project_id private_key_file algorithm
             reads = (t, n, o) ->
  filter is_network (map Env t) = [] /\ published t = [].
Proof.
  unfold create_jwt, bind, now, lift, print, emit. simpl.
  destruct (read_file private_key_file) as [key|e]; simpl; intros H;
    inversion H; subst; split; reflexivity.
Qed.

Lemma wait_for_connection_is_local (connected_at : nat -> bool) (timeout : Z)
  (self : Device.t) (t : trace) (d : Device.t) (o : outcome unit) :
  Device.wait_for_connection connected_at timeout self = (t, d, o) ->
  filter is_network (map Env t) = [] /\ published t = [] /\ d = self.
Proof.
  destruct (wait_for_connection_course connected_at timeout self)
    as [n [_ [_ [_ Hrun]]]].
  rewrite Hrun. intros H. inversion H; subst. split; [|split].
  - apply filter_env. intros e He. apply in_repeat_sleep in He. now subst e.
  - clear. induction n as [|n IH]; [reflexivity | exact IH].
  - reflexivity.
Qed.

(** X24: when the token cannot be built (key file or jwt.encode), when
    tls_set fails, or when the serial port of the remote device cannot be
    opened, main raises before it reaches the broker: no connect, no
    subscribe, no publish.  So without the board on the serial port main
    cannot run unless no_remote_device is set. *)
Theorem main_stops_before_the_network (w : Main.world) (a : Main.args)
  (p : Main.process) :
  (exists e,
     outcome_of (create_jwt (Main.utcnow w) (Main.read_file w) (Main.jwt_encode w)
                   (Main.project_id a) (Main.private_key_file a)
                   (Main.algorithm a) (Main.clock_reads p)) = Raised e) \/
  (exists e, Main.tls_set w = Raised e) \/
  (Main.no_remote_device a = false /\ exists e, Main.open_serial w = Raised e) ->
  let r := Main.main w a p in
  (exists e, Main.result_of r = Raised e) /\
  filter is_network (Main.steps_of r) = [].
Proof.
  intros Hfail r. subst r.
  run_main;
    try (destruct (create_jwt_is_local _ _ _ _ _ _ _ _ _ _ Hjwt) as [Hnet _]);
    unfold outcome_of in Hfail; cbn [snd] in Hfail;
    destruct Hfail as [[e He] | [[e He] | [Hr [e He]]]];
    try discriminate; try congruence;
    (split; [eexists; reflexivity|]);
    rewrite ?filter_app, ?Hnet; reflexivity.
Qed.

(** Without the board the run ends at the serial port. *)
Lemma main_stops_before_the_network_witness :
  Main.result_of (Main.main boardless_world sample_args Main.start)
  = Raised (LibraryError "SerialException") /\
  filter is_network (Main.steps_of (Main.main boardless_world sample_args Main.start))
  = [].
Proof.
  destruct (main_stops_before_the_network boardless_world sample_args Main.start)
    as [_ Hnet].
  - right. right. split; [reflexivity | eexists; reflexivity].
  - split; [reflexivity | exact Hnet].
Defined.

(** X25: with no_remote_device set, main never opens the serial port nor
    starts the reader thread, and every object it publishes reports 0 for
    temperature, pressure, humidity, gas_resistance and altitude. *)
Theorem main_without_remote_device_reports_zero (w : Main.world)
  (a : Main.args) (p : Main.process) :
  Main.no_remote_device a = true ->
  let r := Main.main w a p in
  filter is_serial (Main.steps_of r) = [] /\
  Forall reports_no_readings (published (events_of (Main.steps_of r))).
Proof.
  intros Hno r. subst r.
  assert (Hlocal : forall t, filter is_serial (map Env t) = []).
  { intros t. now apply filter_env. }
  assert (Hzero : forall d i, reports_no_readings (sent d (Main.loop_sample w a) i)).
  { intros d i. unfold sent, Main.loop_sample, telemetry. cbn [remote].
    rewrite Hno. eexists. split; [reflexivity|]. repeat split. }
  run_main; try congruence;
    try (destruct (create_jwt_is_local _ _ _ _ _ _ _ _ _ _ Hjwt) as [_ Hpj]);
    try (destruct (wait_for_connection_is_local _ _ _ _ _ _ Hwait)
           as [_ [Hpw Hdw]]; subst dw);
    try (destruct (main_loop_returns (Main.num_messages a)
                     (Main.mqtt_telemetry_topic a) (Main.loop_sample w a)
                     Device.__init__) as [Htl _];
         rewrite Hloop in Htl; cbn [trace_of fst] in Htl; subst tl);
    (split;
     [ rewrite ?filter_app, ?Hlocal; reflexivity
     | rewrite ?events_of_app, ?published_env, ?published_app, ?Hpj, ?Hpw,
         ?published_iterations;
       cbn [events_of published app]; rewrite ?app_nil_r;
       try (apply Forall_forall; intros v Hv; apply in_map_iff in Hv;
            destruct Hv as [i [<- _]]; apply Hzero);
       try constructor ]).
Qed.

Lemma main_without_remote_device_reports_zero_witness :
  let a := {| Main.project_id := str "my-project-id";
              Main.registry_id := str "my-registry";
              Main.device_id := str "d";
              Main.private_key_file := str "rsa_private.pem";
              Main.algorithm := str "RS256";
              Main.cloud_region := str "us-central1";
              Main.ca_certs := str "roots.pem";
              Main.num_messages := 2;
              Main.mqtt_bridge_hostname := str "mqtt.googleapis.com";
              Main.mqtt_bridge_port := 8883;
              Main.message_type := str "event";
              Main.no_remote_device := true |} in
  Main.result_of (Main.main boardless_world a Main.start) = Returned tt /\
  filter is_serial (Main.steps_of (Main.main boardless_world a Main.start)) = [].
Proof.
  intros a.
  destruct (main_without_remote_device_reports_zero boardless_world a Main.start)
    as [Hserial _].
  - reflexivity.
  - split; [reflexivity | exact Hserial].
Defined.

(** ** What the loop reports *)

(** The loop writes the acceleration and nothing else. *)
Lemma main_loop_keeps_all_but_accel (topic : text) (env : nat -> sample)
  (self : Device.t) :
  forall count start self',
    (forall a, Device.set_accel a self' = Device.set_accel a self) ->
    forall a,
      Device.set_accel a
        (state_of (for_each (seq start count)
                     (fun i => publish_once topic (env i)) self'))
      = Device.set_accel a self.
Proof.
  induction count as [|count IH]; intros start self' Hsame a.
  - apply Hsame.
  - cbn [seq for_each]. unfold bind. rewrite publish_once_run.
    specialize (IH (S start) (Device.set_accel (accelerometer (env start)) self')).
    assert (Hnext : forall a0,
              Device.set_accel a0 (Device.set_accel (accelerometer (env start)) self')
              = Device.set_accel a0 self).
    { intros a0. rewrite set_accel_twice. apply Hsame. }
    specialize (IH Hnext a). unfold state_of in *.
    destruct (for_each (seq (S start) count) _ _) as [[t s] o]. exact IH.
Qed.

(** X26: the loop never updates proximity and luminance (the reads of
    the sensor are commented out): every object it publishes carries the
    proximity and ambient_lux the device had before the loop, 0 for a new
    Device, together with the acceleration and the time of its own
    iteration; after the loop the device differs from before in the
    acceleration only. *)
Theorem main_loop_reports_fresh_acceleration_and_old_proximity
  (num_messages : Z) (topic : text) (env : nat -> sample) (self : Device.t) :
  let r := main_loop num_messages topic env self in
  (forall i v,
     nth_error (published (trace_of r)) i = Some v ->
     field "proximity" v = Some (Device.proximity self) /\
     field "luminance" v = Some (Device.ambient_lux self) /\
     (field "accel_x" v, field "accel_y" v, field "accel_z" v)
     = (let '(x, y, z) := accelerometer (env i) in (Some x, Some y, Some z)) /\
     field "time" v = Some (VStr (strftime_now (env i)))) /\
  Device.proximity (state_of r) = Device.proximity self /\
  Device.ambient_lux (state_of r) = Device.ambient_lux self /\
  Device.led_on (state_of r) = Device.led_on self /\
  Device.connected (state_of r) = Device.connected self.
Proof.
  intros r. subst r. split.
  - intros i v Hnth.
    destruct (main_loop_returns num_messages topic env self) as [Ht _].
    rewrite Ht, published_iterations in Hnth.
    unfold range in Hnth.
    assert (Hi : (i < Z.to_nat num_messages)%nat).
    { assert (Hsome : nth_error (map (sent self env) (seq 0 (Z.to_nat num_messages))) i
                      <> None) by congruence.
      apply nth_error_Some in Hsome.
      now rewrite length_map, length_seq in Hsome. }
    rewrite nth_error_map, nth_error_seq in Hnth.
    destruct (Nat.ltb_spec i (Z.to_nat num_messages)) as [_|Hge]; [|lia].
    simpl in Hnth. inversion Hnth; subst v.
    unfold sent, telemetry. destruct (accelerometer (env i)) as [[x y] z].
    repeat split.
  - pose proof (main_loop_keeps_all_but_accel topic env self
                  (Z.to_nat num_messages) 0 self (fun a => eq_refl)
                  (VNone, VNone, VNone)) as H.
    unfold main_loop, range.
    destruct (state_of (for_each (seq 0 (Z.to_nat num_messages))
                          (fun i => publish_once topic (env i)) self))
      as [px lux led conn ax ay az].
    destruct self as [px' lux' led' conn' ax' ay' az'].
    unfold Device.set_accel in H. inversion H; subst. repeat split.
Qed.

(** X27: the readings are published as they were read: for every run of
    the read loop from a new remote device, each of temperature, pressure,
    humidity, gas_resistance and altitude in the telemetry object is the
    number 0 or the text of a token, never a number parsed from the
    line. *)
Theorem telemetry_carries_readings_as_text
  (turns : list RemoteDevice.serial_io) (device : Device.t) (time : text) :
  let remoteDevice :=
    state_of (RemoteDevice.check_incoming_serial_data turns RemoteDevice.__init__) in
  Forall (fun name =>
            exists v, field name (telemetry device remoteDevice time) = Some v /\
                      reading_form v)
         ["temperature"; "pressure"; "humidity"; "gas_resistance"; "altitude"]%string.
Proof.
  intros remoteDevice.
  assert (Hform : Forall reading_form (readings remoteDevice)).
  { subst remoteDevice.
    apply (check_incoming_serial_data_invariant
             (fun s => Forall reading_form (readings s))).
    - intros io s Hs.
      destruct (check_incoming_serial_data_turn_state io s)
        as [[_ ->] | [line [a [b [c [d [e [_ [_ [Htok ->]]]]]]]]]]; [exact Hs|].
      pose proof (proj1 (sensor_tokens_scanned
                           (last_item (split1 58%N (strip CR_LF line))))) as Hf.
      unfold RemoteDevice.tokens in Htok. rewrite Htok in Hf.
      unfold readings, with_readings. simpl.
      repeat match goal with
             | H : Forall _ (_ :: _) |- _ => inversion H; clear H; subst
             end.
      repeat (apply Forall_cons;
              [right; eexists; split; [reflexivity | assumption]|]).
      apply Forall_nil.
    - repeat constructor; now left. }
  unfold readings in Hform.
  repeat match goal with
         | H : Forall _ (_ :: _) |- _ => inversion H; clear H; subst
         end.
  repeat (apply Forall_cons; [eexists; split; [reflexivity | assumption]|]).
  apply Forall_nil.
Qed.
